(** * IIS rollback tool: the remote executor, the site controller, the backup
    classifier and the rollback orchestrator.

    Shallow embedding of
      - src/tools/ssh_tool.py      (SSHExecutor),
      - src/tools/iis_tool.py      (IISManager),
      - src/tools/backup_tool.py   (BackupManager),
      - src/agents/developer_agent.py (DeveloperAgent.execute_rollback).

    The Python code talks to a remote host and raises exceptions, so the
    embedding is monadic: a computation takes the state of the agent and of
    the world and returns a value or a raised exception, and the new state.
    Everything that is not code of the repository (the replies of the remote
    host, the outcome of each connection attempt, the clock, the library
    functions [int], [str.strip], [os.path.*]) is an explicit parameter.
    Logging has no effect on any result and is left out, and so is
    [duration_seconds], a difference of two floating-point clock reads. *)

From Stdlib Require Import String Ascii List ZArith Bool Lia.
From Stdlib Require Import DecimalString.
Import ListNotations.
Open Scope string_scope.
Open Scope Z_scope.

(* ------------------------------------------------------------------ *)
(** ** Text *)

(** The double quote and the backslash, which the remote command lines use
    around every path. *)
Definition dq : string := String (ascii_of_nat 34) EmptyString.
Definition bs : string := String (ascii_of_nat 92) EmptyString.
(** The escaped quote of the remote command lines: a backslash and a quote. *)
Definition bq : string := bs ++ dq.

(** Truth value of a Python string: the empty string is false. *)
Definition nonempty (s : string) : bool :=
  match s with EmptyString => false | String _ _ => true end.

(** [sep.join(l)] *)
Fixpoint join (sep : string) (l : list string) : string :=
  match l with
  | [] => ""
  | [x] => x
  | x :: rest => x ++ sep ++ join sep rest
  end.

(** [str(n)] for an integer. *)
Definition str_of_Z (n : Z) : string := NilZero.string_of_int (Z.to_int n).

(** [s.split(c)] for a separator of one character: always at least one part. *)
Fixpoint split_on (c : ascii) (s : string) : list string :=
  match s with
  | EmptyString => [EmptyString]
  | String a rest =>
      if Ascii.eqb a c then EmptyString :: split_on c rest
      else match split_on c rest with
           | [] => [String a EmptyString]
           | p :: ps => String a p :: ps
           end
  end.

(** [s.rstrip(c)] for one character [c]. *)
Fixpoint rstrip_char (c : ascii) (s : string) : string :=
  match s with
  | EmptyString => EmptyString
  | String a rest =>
      match rstrip_char c rest with
      | EmptyString => if Ascii.eqb a c then EmptyString else String a EmptyString
      | r => String a r
      end
  end.

(* ------------------------------------------------------------------ *)
(** ** Exceptions *)

(** The exceptions that the code raises or receives.  All of them derive from
    Python's [Exception], so every [except Exception] clause catches them.
    [RetryError] is what tenacity raises when it gives up; it wraps the
    exception of the last attempt. *)
Inductive PyExn : Type :=
| RuntimeError (msg : string)
| ValueError (msg : string)
| NameError (name : string)
| AuthenticationException (msg : string)
| SSHException (msg : string)
| SocketError (msg : string)
| AttributeError (msg : string)
| RetryError (last : PyExn).

(** [str(e)].  For [RetryError] the real text also carries the address of a
    future object; no result of the orchestrator is built from it. *)
Fixpoint exn_str (e : PyExn) : string :=
  match e with
  | RuntimeError m | ValueError m | AuthenticationException m
  | SSHException m | SocketError m | AttributeError m => m
  | NameError n => "name '" ++ n ++ "' is not defined"
  | RetryError last => "RetryError[" ++ exn_str last ++ "]"
  end.

(* ------------------------------------------------------------------ *)
(** ** Data of the source *)

(** [SSHConfig] (ssh_tool.py) *)
Record SSHConfig : Type := mkSSHConfig {
  host : string;
  username : string;
  port : Z;
  password : option string;
  key_path : option string;
  timeout : Z
}.

(** Truth value of an [Optional[str]]: [None] and the empty string are false. *)
Definition truthy (o : option string) : bool :=
  match o with Some s => nonempty s | None => false end.

(** The result dictionary of [execute_command]:
    [{'success', 'stdout', 'stderr', 'return_code'}]. *)
Record CommandResult : Type := mkCommandResult {
  success : bool;
  stdout : string;
  stderr : string;
  return_code : Z
}.

(** [SSHExecutor]: its configuration, whether [self.client] holds a client
    object, and the [connected] flag. *)
Record SSHExecutor : Type := mkSSHExecutor {
  config : SSHConfig;
  client : bool;
  connected : bool
}.

(** What one call of [client.connect] does. *)
Inductive ConnectOutcome : Type :=
| ConnOk
| ConnRaise (e : PyExn).

(** What one call of [client.exec_command], followed by reading both streams
    and the exit status, does: the decoded output, or an exception. *)
Inductive ExecOutcome : Type :=
| ExecDone (out err : string) (code : Z)
| ExecRaise (e : PyExn).

(** The method that issued a remote command.  The tag is only a label in the
    trace; no function of the model inspects it. *)
Inductive Op : Type :=
| OpCount | OpZipInfo | OpFolderInfo | OpMkTemp | OpExtract | OpPreventive
| OpStop | OpDelete | OpCopy | OpStart | OpCleanup | OpSiteState | OpOther.

(** The [return] statement of [execute_rollback] that ended the run. *)
Inductive Exit : Type :=
| AbortConnect      (* line 172: the connection could not be opened *)
| AbortClassify     (* line 182: the classifier answered NONE *)
| AbortExtract      (* line 204: the archive could not be extracted *)
| AbortCopy         (* line 249: the restore copy failed *)
| EndWithErrors     (* line 277: end of the sequence, errors accumulated *)
| EndClean          (* line 288: end of the sequence, no error *)
| AbortException.   (* line 300: the catch-all handler *)

(** What the run did to the outside, in order. *)
Inductive Event : Type :=
| EvConnect (attempt : nat) (o : ConnectOutcome)  (* client.connect(...) *)
| EvSleep (seconds : Z)                           (* wait between attempts *)
| EvExec (op : Op) (cmd : string) (o : ExecOutcome)
                                                  (* client.exec_command(cmd) *)
| EvClose                                         (* client.close() *)
| EvReturn (x : Exit).                            (* return of execute_rollback *)

(* ------------------------------------------------------------------ *)
(** ** What lies outside the repository *)

(** Library functions of the Python runtime the code calls. [py_int] answers
    [None] where [int] raises [ValueError]. *)
Record Runtime : Type := mkRuntime {
  py_strip : string -> string;                 (* s.strip() *)
  py_int : string -> option Z;                 (* int(s) *)
  strptime_ok : string -> bool;                (* datetime.strptime(s, fmt) parses *)
  os_path_join : string -> string -> string;
  os_path_dirname : string -> string;
  os_path_basename : string -> string;
  os_path_expanduser : string -> string
}.

(** The world of one run: the outcome of the k-th connection attempt, the
    reply to the k-th remote command (which may depend on its text), the text
    of the k-th reading of the clock, and which files exist locally. *)
Record Env : Type := mkEnv {
  connect_reply : nat -> ConnectOutcome;
  exec_reply : nat -> string -> ExecOutcome;
  now_stamp : nat -> string;                   (* strftime("%Y%m%d_%H%M%S") *)
  file_exists : string -> bool                 (* os.path.exists *)
}.

(** The state a run threads: the executor held by the agent (the same object
    is [IISManager.ssh] and [BackupManager.ssh]), [BackupManager.temp_folder],
    how many times the world has been asked, and the trace. *)
Record State : Type := mkState {
  agent_ssh : option SSHExecutor;
  temp_folder : option string;
  n_connect : nat;
  n_exec : nat;
  n_clock : nat;
  trace : list Event
}.

(** A state at the start of a run, with whatever executor an earlier run left
    in the agent. *)
Definition boot (leftover : option SSHExecutor) : State :=
  mkState leftover None 0 0 0 [].

(* ------------------------------------------------------------------ *)
(** ** The monad of state and exceptions *)

Inductive Outcome (A : Type) : Type :=
| Val (a : A)
| Exn (e : PyExn).
Arguments Val {A} a.
Arguments Exn {A} e.

Definition M (A : Type) : Type := State -> Outcome A * State.

Definition ret {A} (a : A) : M A := fun st => (Val a, st).
Definition raise {A} (e : PyExn) : M A := fun st => (Exn e, st).
Definition bind {A B} (m : M A) (k : A -> M B) : M B :=
  fun st => match m st with
            | (Val a, st') => k a st'
            | (Exn e, st') => (Exn e, st')
            end.

(** [try: m  except Exception as e: h e] *)
Definition try_except {A} (m : M A) (h : PyExn -> M A) : M A :=
  fun st => match m st with
            | (Val a, st') => (Val a, st')
            | (Exn e, st') => h e st'
            end.

(** [try: m  finally: f]: [f] runs on every way out of [m]; an exception of
    [f] replaces the outcome of [m]. *)
Definition try_finally {A} (m : M A) (f : M unit) : M A :=
  fun st => match m st with
            | (o, st') => match f st' with
                          | (Val _, st'') => (o, st'')
                          | (Exn e, st'') => (Exn e, st'')
                          end
            end.

Declare Scope monad_scope.
Delimit Scope monad_scope with monad.
Notation "x <- m ;; k" := (bind m (fun x => k))
  (at level 61, m at next level, right associativity) : monad_scope.
Notation "m ;;; k" := (bind m (fun _ => k))
  (at level 61, right associativity) : monad_scope.
Open Scope monad_scope.

Definition get_state : M State := fun st => (Val st, st).
Definition log (ev : Event) : M unit :=
  fun st => (Val tt, mkState (agent_ssh st) (temp_folder st) (n_connect st)
                             (n_exec st) (n_clock st) (trace st ++ [ev])).
Definition set_ssh (x : option SSHExecutor) : M unit :=
  fun st => (Val tt, mkState x (temp_folder st) (n_connect st)
                             (n_exec st) (n_clock st) (trace st)).
Definition set_temp_folder (t : option string) : M unit :=
  fun st => (Val tt, mkState (agent_ssh st) t (n_connect st)
                             (n_exec st) (n_clock st) (trace st)).

(* ------------------------------------------------------------------ *)
(** ** tenacity's retry decorator *)

(** [wait_exponential(multiplier, min, max)]: the wait after the attempt of
    the given number is [multiplier * 2 ^ (number - 1)], kept between [min]
    and [max]. *)
Definition wait_exponential (multiplier mn mx : Z) (attempt_number : nat) : Z :=
  Z.max (Z.max 0 mn) (Z.min (multiplier * 2 ^ (Z.of_nat attempt_number - 1)) mx).

(** The loop behind [@retry(stop=stop_after_attempt(n), wait=w)].  No [retry=]
    argument is given in the source, so the predicate is tenacity's default,
    which asks for another attempt after any exception; no [reraise=True]
    either, so giving up raises [RetryError].  [left] counts the attempts
    still allowed after the current one. *)
Fixpoint retrying {A} (wait : nat -> Z) (left attempt_number : nat) (f : M A)
  : M A :=
  try_except f (fun e =>
    match left with
    | O => raise (RetryError e)
    | S left' =>
        log (EvSleep (wait attempt_number)) ;;;
        retrying wait left' (S attempt_number) f
    end).

Definition retry {A} (stop_after_attempt : nat) (wait : nat -> Z) (f : M A)
  : M A :=
  retrying wait (stop_after_attempt - 1) 1 f.

(* ------------------------------------------------------------------ *)
(** ** Results of the managers and of the orchestrator *)

(** [copy_files] adds a message to the command result. *)
Record CopyResult : Type := mkCopyResult {
  copy_success : bool;
  copy_message : string;
  copy_stdout : string;
  copy_stderr : string;
  copy_return_code : Z
}.

Inductive BackupType : Type := BT_ZIP | BT_FOLDER | BT_UNKNOWN.
Inductive RollbackMode : Type := ZIP | FOLDER | NONE.

(** [RollbackMode.value] *)
Definition mode_value (m : RollbackMode) : string :=
  match m with ZIP => "zip" | FOLDER => "folder" | NONE => "none" end.

(** A [datetime]: parsed from the text the remote host printed, or the k-th
    reading of the local clock. *)
Inductive Timestamp : Type :=
| Parsed (text : string)
| Now (k : nat).

Record BackupInfo : Type := mkBackupInfo {
  bi_path : string;
  bi_type : BackupType;
  bi_name : string;
  bi_timestamp : Timestamp
}.

(** The dictionary [detect_backup_type] returns. *)
Record Detection : Type := mkDetection {
  det_type : RollbackMode;
  zip_count : Z;
  backup_info : option BackupInfo;
  message : string
}.

(** The dictionary [create_preventive_backup] returns; [backup_path] is
    [None] when the backup failed. *)
Record PreventiveResult : Type := mkPreventiveResult {
  pv_success : bool;
  pv_backup_path : option string;
  pv_message : string
}.

Record CleanupResult : Type := mkCleanupResult {
  cl_success : bool;
  cl_message : string
}.

Record RollbackConfig : Type := mkRollbackConfig {
  site_name : string;
  site_path : string;
  backup_path : string;
  ssh_config : SSHConfig
}.

(** [RollbackResult].  [preventive_backup_path] receives
    [preventive_result.get('backup_path', '')], which is [None] after a failed
    preventive backup, hence the option; the default of every text field is
    the empty string. *)
Record RollbackResult : Type := mkRollbackResult {
  rb_success : bool;
  rb_mode : string;
  rb_backup_path : string;
  rb_preventive_backup_path : option string;
  rb_temp_folder : string;
  rb_error : string
}.

(** [robocopy] exit codes that [copy_files] takes for a success. *)
Definition robocopy_ok (code : Z) : bool :=
  (code =? 0) || (code =? 1) || (code =? 2).

(** A field [{x}] of an f-string: the name is looked up among the local
    variables of the function (no module of the source binds a global of that
    name); an unbound name raises [NameError]. *)
Definition fetch (locals : list (string * string)) (x : string) : M string :=
  match find (fun p => String.eqb (fst p) x) locals with
  | Some p => ret (snd p)
  | None => raise (NameError x)
  end.

Section Program.

Variable rt : Runtime.
Variable env : Env.

(* ------------------------------------------------------------------ *)
(** ** ssh_tool.py: SSHExecutor *)

(** A method called on [self.ssh]: on [None] Python raises
    [AttributeError]. *)
Definition with_ssh {A} (f : SSHExecutor -> M A) : M A :=
  fun st => match agent_ssh st with
            | Some ex => f ex st
            | None => (Exn (AttributeError "'NoneType' object has no attribute"), st)
            end.

Definition set_connected (b : bool) : M unit :=
  with_ssh (fun ex => set_ssh (Some (mkSSHExecutor (config ex) (client ex) b))).

Definition _validate_config (cfg : SSHConfig) : M unit :=
  if negb (truthy (password cfg)) && negb (truthy (key_path cfg)) then
    raise (ValueError "Either SSH password or SSH key path must be provided")
  else
    match key_path cfg with
    | Some kp =>
        if nonempty kp then
          let p := os_path_expanduser rt kp in
          if negb (file_exists env p)
          then raise (ValueError ("SSH key file not found: " ++ p))
          else ret tt
        else ret tt
    | None => ret tt
    end.

(** [SSHExecutor(config)] *)
Definition SSHExecutor_init (cfg : SSHConfig) : M SSHExecutor :=
  _validate_config cfg ;;;
  ret (mkSSHExecutor cfg false false).

(** One call of [self.client.connect] with the parameters of the
    configuration. *)
Definition client_connect : M unit :=
  fun st =>
    let o := connect_reply env (n_connect st) in
    let st' := mkState (agent_ssh st) (temp_folder st) (S (n_connect st))
                       (n_exec st) (n_clock st)
                       (trace st ++ [EvConnect (n_connect st) o]) in
    match o with
    | ConnOk => (Val tt, st')
    | ConnRaise e => (Exn e, st')
    end.

Definition _connect_with_retry : M unit :=
  retry 3 (wait_exponential 1 2 10) client_connect.

Definition connect : M bool :=
  with_ssh (fun ex =>
    if connected ex then ret true
    else
      set_ssh (Some (mkSSHExecutor (config ex) true (connected ex))) ;;;
      try_except
        (_connect_with_retry ;;;
         set_connected true ;;;
         ret true)
        (fun e => set_connected false ;;; raise e)).

Definition disconnect : M unit :=
  with_ssh (fun ex =>
    if client ex && connected ex
    then log EvClose ;;; set_connected false
    else ret tt).

(** [self.client.exec_command(full_command)] and the three reads that follow
    it.  Without a client object the attribute access raises. *)
Definition client_exec (op : Op) (full_command : string)
  : M (string * string * Z) :=
  with_ssh (fun ex =>
    if negb (client ex)
    then raise (AttributeError "'NoneType' object has no attribute 'exec_command'")
    else fun st =>
      let o := exec_reply env (n_exec st) full_command in
      let st' := mkState (agent_ssh st) (temp_folder st) (n_connect st)
                         (S (n_exec st)) (n_clock st)
                         (trace st ++ [EvExec op full_command o]) in
      match o with
      | ExecDone out err code => (Val (out, err, code), st')
      | ExecRaise e => (Exn e, st')
      end).

(** The wrapping that [powershell=True] asks for. *)
Definition powershell_wrap (command : string) : string :=
  "powershell -Command " ++ dq ++ command ++ dq.

(** [execute_command(command, powershell)].  The timeout argument only bounds
    how long the transport may take and is part of the world's reply. *)
Definition execute_command (op : Op) (command : string) (powershell : bool)
  : M CommandResult :=
  with_ssh (fun ex =>
    if negb (connected ex) then
      raise (RuntimeError "Not connected to SSH server. Call connect() first.")
    else
      let full_command :=
        if powershell then powershell_wrap command else command in
      try_except
        (r <- client_exec op full_command ;;
         let '(stdout_content, stderr_content, exit_code) := r in
         ret (mkCommandResult (exit_code =? 0)
                              (py_strip rt stdout_content)
                              (py_strip rt stderr_content)
                              exit_code))
        (fun e => ret (mkCommandResult false "" (exn_str e) (-1)))).

Definition is_connected : M bool :=
  with_ssh (fun ex => ret (connected ex)).

(** [datetime.now().strftime("%Y%m%d_%H%M%S")] *)
Definition now_text : M string :=
  fun st => (Val (now_stamp env (n_clock st)),
             mkState (agent_ssh st) (temp_folder st) (n_connect st)
                     (n_exec st) (S (n_clock st)) (trace st)).

(** [datetime.now()] *)
Definition now : M Timestamp :=
  fun st => (Val (Now (n_clock st)),
             mkState (agent_ssh st) (temp_folder st) (n_connect st)
                     (n_exec st) (S (n_clock st)) (trace st)).

(* ------------------------------------------------------------------ *)
(** ** iis_tool.py: IISManager *)

Definition stop_command (name : string) : string :=
  "appcmd stop site " ++ dq ++ name ++ dq.

Definition stop_site (name : string) : M CommandResult :=
  execute_command OpStop (stop_command name) false.

Definition start_command (name : string) : string :=
  "appcmd start site " ++ dq ++ name ++ dq.

Definition start_site (name : string) : M CommandResult :=
  execute_command OpStart (start_command name) false.

Definition site_state_command (name : string) : string :=
  "powershell -Command " ++ dq ++
  "$site = Get-Website -Name " ++ bq ++ name ++ bq ++ "; " ++
  "if ($site) { $site.State } else { " ++ bq ++ "NotFound" ++ bq ++ " }" ++ dq.

Definition get_site_state (name : string) : M (option string) :=
  let command := site_state_command name in
  result <- execute_command OpSiteState command true ;;
  if success result then ret (Some (py_strip rt (stdout result)))
  else ret None.

Definition delete_command (path : string) (keep_root : bool) : string :=
  if keep_root then
    "powershell -Command " ++ dq ++
    "Remove-Item -Path " ++ bq ++ path ++ bs ++ "*" ++ bq ++
      " -Recurse -Force -ErrorAction SilentlyContinue; " ++
    "$files = Get-ChildItem -Path " ++ bq ++ path ++ bq ++ " -File -Recurse; " ++
    "$files | ForEach-Object { Remove-Item -Path $_.FullName -Force }; " ++
    "Write-Host " ++ bq ++ "Content deletion complete" ++ bq ++ dq
  else
    "powershell -Command " ++ dq ++
    "Remove-Item -Path " ++ bq ++ path ++ bq ++ " -Recurse -Force; " ++
    "Write-Host " ++ bq ++ "Folder deletion complete" ++ bq ++ dq.

Definition delete_site_content (path : string) (keep_root : bool)
  : M CommandResult :=
  let command := delete_command path keep_root in
  execute_command OpDelete command true.

Definition copy_command (source_path destination_path : string) : string :=
  "robocopy " ++ dq ++ source_path ++ dq ++ " " ++ dq ++ destination_path ++ dq ++
  " /E /Z /B /MT:16 /R:3 /W:5".

Definition copy_files (source_path destination_path : string) : M CopyResult :=
  let command := copy_command source_path destination_path in
  result <- execute_command OpCopy command false ;;
  if robocopy_ok (return_code result) then
    ret (mkCopyResult true
                      ("Files copied (robocopy exit code: " ++
                       str_of_Z (return_code result) ++ ")")
                      (stdout result) (stderr result) (return_code result))
  else
    ret (mkCopyResult false ("Copy failed: " ++ stderr result)
                      (stdout result) (stderr result) (return_code result)).

(* ------------------------------------------------------------------ *)
(** ** backup_tool.py: BackupManager *)

(** Line 195 of the source closes the format string of [ToString] with an
    escaped backslash before the quote; the command below is the text the
    sibling [_get_folder_info] builds for the same format. *)
Definition zip_info_command (path : string) : string :=
  "powershell -Command " ++ dq ++
  "$zipFile = Get-ChildItem -Path " ++ bq ++ path ++ bq ++
    " -Filter *.zip | Select-Object -First 1; " ++
  "Write-Host " ++ bq ++
    "$($zipFile.Name)|$($zipFile.LastWriteTimeUtc.ToString('yyyy-MM-dd HH:mm:ss'))" ++
    bq ++ dq.

Definition _get_zip_info (path : string) : M BackupInfo :=
  let command := zip_info_command path in
  result <- execute_command OpZipInfo command true ;;
  let fallback := (t <- now ;; ret (mkBackupInfo path BT_ZIP "backup.zip" t)) in
  if success result && nonempty (stdout result) then
    match split_on "|"%char (stdout result) with
    | p0 :: p1 :: _ =>
        if strptime_ok rt (py_strip rt p1)
        then ret (mkBackupInfo path BT_ZIP (py_strip rt p0)
                               (Parsed (py_strip rt p1)))
        else fallback
    | _ => fallback
    end
  else fallback.

Definition folder_info_command (path : string) : string :=
  "powershell -Command " ++ dq ++
  "$folder = Get-Item -Path " ++ bq ++ path ++ bq ++
    " -ErrorAction SilentlyContinue; " ++
  "if ($folder) { Write-Host $folder.LastWriteTimeUtc.ToString('yyyy-MM-dd HH:mm:ss') }" ++
  dq.

Definition _get_folder_info (path : string) : M BackupInfo :=
  let folder_name := os_path_basename rt (rstrip_char "\"%char path) in
  let command := folder_info_command path in
  result <- execute_command OpFolderInfo command true ;;
  t <- now ;;
  let timestamp :=
    if success result && nonempty (stdout result) then
      if strptime_ok rt (py_strip rt (stdout result))
      then Parsed (py_strip rt (stdout result))
      else t
    else t in
  ret (mkBackupInfo path BT_FOLDER folder_name timestamp).

Definition count_command (path : string) : string :=
  "powershell -Command " ++ dq ++
  "$zipCount = (Get-ChildItem -Path " ++ bq ++ path ++ bq ++
    " -Filter *.zip -ErrorAction SilentlyContinue).Count; " ++
  "Write-Host $zipCount" ++ dq.

Definition detect_backup_type (path : string) : M Detection :=
  let command := count_command path in
  result <- execute_command OpCount command true ;;
  if negb (success result) then
    ret (mkDetection NONE (-1) None
                     ("Failed to check backup: " ++ stderr result))
  else
    let count :=
      match py_int rt (py_strip rt (stdout result)) with
      | Some n => n
      | None => 0
      end in
    if count =? 1 then
      zip_info <- _get_zip_info path ;;
      ret (mkDetection ZIP 1 (Some zip_info)
                       "ZIP mode detected (1 ZIP file found)")
    else if count >? 1 then
      ret (mkDetection NONE count None
                       ("Abort: " ++ str_of_Z count ++ " ZIP files found (expected 1)"))
    else
      folder_info <- _get_folder_info path ;;
      ret (mkDetection FOLDER 0 (Some folder_info)
                       "Folder mode detected (no ZIP files)").

Definition temp_folder_command (f1 f2 f3 : string) : string :=
  "powershell -Command " ++ dq ++
  "if (!(Test-Path " ++ bq ++ f1 ++ bq ++ ")) { New-Item -Path " ++ bq ++ f2 ++ bq ++
    " -ItemType Directory -Force }; " ++
  "New-Item -Path " ++ bq ++ f3 ++ bq ++ " -ItemType Directory -Force | Out-Null; " ++
  "Write-Host " ++ bq ++ "Created" ++ bq ++ dq.

(** The command of line 283 to 288 has three fields: [base_path],
    [basePath] and [temp_folder]; they are evaluated from left to right when
    the string is built, before anything is sent. *)
Definition create_temp_folder (base_path : string) : M string :=
  timestamp <- now_text ;;
  let temp := os_path_join rt base_path ("Rollback_" ++ timestamp) in
  let locals := [("base_path", base_path); ("timestamp", timestamp);
                 ("temp_folder", temp)] in
  f1 <- fetch locals "base_path" ;;
  f2 <- fetch locals "basePath" ;;
  f3 <- fetch locals "temp_folder" ;;
  let command := temp_folder_command f1 f2 f3 in
  result <- execute_command OpMkTemp command true ;;
  if success result then
    set_temp_folder (Some temp) ;;;
    ret temp
  else
    raise (RuntimeError ("Failed to create temp folder: " ++ stderr result)).

Definition extract_command (zip_path destination : string) : string :=
  "powershell -Command " ++ dq ++
  "Expand-Archive -Path " ++ bq ++ zip_path ++ bq ++
    " -DestinationPath " ++ bq ++ destination ++ bq ++ " -Force; " ++
  "Write-Host " ++ bq ++ "Extraction complete" ++ bq ++ dq.

Definition extract_zip (zip_path destination : string) : M CommandResult :=
  let command := extract_command zip_path destination in
  execute_command OpExtract command true.

Definition preventive_command (site target : string) : string :=
  "powershell -Command " ++ dq ++
  "New-Item -Path " ++ bq ++ target ++ bq ++ " -ItemType Directory -Force | Out-Null; " ++
  "robocopy " ++ bq ++ site ++ bq ++ " " ++ bq ++ target ++ bq ++
    " /E /Z /R:3 /W:5 | Out-Null; " ++
  "Write-Host " ++ bq ++ "Backup created at " ++ target ++ bq ++ dq.

Definition create_preventive_backup (site backup_base name : string)
  : M PreventiveResult :=
  timestamp <- now_text ;;
  let target := os_path_join rt backup_base ("PreRollback_" ++ timestamp) in
  let command := preventive_command site target in
  result <- execute_command OpPreventive command true ;;
  if success result then
    ret (mkPreventiveResult true (Some target)
                            ("Preventive backup created: " ++ target))
  else
    ret (mkPreventiveResult false None
                            ("Failed to create backup: " ++ stderr result)).

Definition cleanup_command (folder : string) : string :=
  "powershell -Command " ++ dq ++
  "Remove-Item -Path " ++ bq ++ folder ++ bq ++
    " -Recurse -Force -ErrorAction SilentlyContinue; " ++
  "Write-Host " ++ bq ++ "Cleanup complete" ++ bq ++ dq.

(** The message of a successful cleanup is formatted after the field has been
    reset, so it prints [None]. *)
Definition cleanup_temp_folder : M CleanupResult :=
  st <- get_state ;;
  if negb (truthy (temp_folder st)) then
    ret (mkCleanupResult true "No temp folder to clean up")
  else
    let folder := match temp_folder st with Some t => t | None => "" end in
    let command := cleanup_command folder in
    result <- execute_command OpCleanup command true ;;
    if success result then
      set_temp_folder None ;;;
      ret (mkCleanupResult true "Cleaned up temp folder: None")
    else
      ret (mkCleanupResult false ("Failed to clean up: " ++ stderr result)).

(* ------------------------------------------------------------------ *)
(** ** developer_agent.py: DeveloperAgent *)

(** On success the agent gets a new [IISManager] and a new [BackupManager]
    around the executor, so [temp_folder] starts at [None]; managers left by
    an earlier run are never used after a failed connection, since the run
    returns at once. *)
Definition _connect_ssh (cfg : SSHConfig) : M bool :=
  try_except
    (ex <- SSHExecutor_init cfg ;;
     set_ssh (Some ex) ;;;
     connect ;;;
     set_temp_folder None ;;;
     ret true)
    (fun _ => ret false).

Definition _disconnect_ssh : M unit :=
  st <- get_state ;;
  match agent_ssh st with
  | Some _ => disconnect
  | None => ret tt
  end.

(** A [return] of [execute_rollback]: the trace records which one. *)
Definition returning (x : Exit) (r : RollbackResult) : M RollbackResult :=
  log (EvReturn x) ;;; ret r.

(** Steps 4 to 10 of [execute_rollback] (lines 214 to 295), which follow
    step 3 whichever branch it took. *)
Definition restore (cfg : RollbackConfig) (mode backup_source temp : string)
  : M RollbackResult :=
  let errors : list string := [] in
  (* Step 4 *)
  let backup_base := os_path_dirname rt (backup_path cfg) in
  preventive_result <-
    create_preventive_backup (site_path cfg) backup_base (site_name cfg) ;;
  (* Step 5 *)
  stop_result <- stop_site (site_name cfg) ;;
  let errors :=
    if success stop_result then errors
    else app errors [("Failed to stop site: " ++ stderr stop_result)%string] in
  (* Step 6 *)
  delete_result <- delete_site_content (site_path cfg) true ;;
  let errors :=
    if success delete_result then errors
    else app errors [("Failed to delete content: " ++ stderr delete_result)%string] in
  (* Step 7 *)
  copy_result <- copy_files backup_source (site_path cfg) ;;
  if negb (copy_success copy_result) then
    returning AbortCopy
      (mkRollbackResult false mode (backup_path cfg)
         (pv_backup_path preventive_result) temp
         ("Failed to copy files: " ++ copy_stderr copy_result))
  else
    (* Step 8 *)
    start_result <- start_site (site_name cfg) ;;
    let errors :=
      if success start_result then errors
      else app errors [("Failed to start site: " ++ stderr start_result)%string] in
    (* Step 9 *)
    (if nonempty temp then cleanup_temp_folder ;;; ret tt else ret tt) ;;;
    match errors with
    | _ :: _ =>
        returning EndWithErrors
          (mkRollbackResult true mode (backup_path cfg)
             (pv_backup_path preventive_result) temp
             ("Completed with errors: " ++ join "; " errors))
    | [] =>
        returning EndClean
          (mkRollbackResult true mode (backup_path cfg)
             (pv_backup_path preventive_result) temp "")
    end.

(** The body of the [try] of [execute_rollback] (lines 169 to 295). *)
Definition rollback_steps (cfg : RollbackConfig) : M RollbackResult :=
  (* Step 1 *)
  ok <- _connect_ssh (ssh_config cfg) ;;
  if negb ok then
    returning AbortConnect
      (mkRollbackResult false "" "" (Some "") ""
                        "Failed to establish SSH connection")
  else
    (* Step 2 *)
    detection <- detect_backup_type (backup_path cfg) ;;
    match det_type detection with
    | NONE =>
        returning AbortClassify
          (mkRollbackResult false "" "" (Some "") "" (message detection))
    | ZIP =>
        let mode := mode_value (det_type detection) in
        (* Step 3 *)
        temp <- create_temp_folder ("E:" ++ bs ++ "Temp") ;;
        match backup_info detection with
        | None => raise (AttributeError "'NoneType' object has no attribute 'name'")
        | Some info =>
            let zip_path := os_path_join rt (backup_path cfg) (bi_name info) in
            extract_result <- extract_zip zip_path temp ;;
            if negb (success extract_result) then
              returning AbortExtract
                (mkRollbackResult false mode "" (Some "") temp
                   ("Failed to extract ZIP: " ++ stderr extract_result))
            else
              restore cfg mode temp temp
        end
    | FOLDER =>
        let mode := mode_value (det_type detection) in
        restore cfg mode (backup_path cfg) ""
    end.

Definition execute_rollback (cfg : RollbackConfig) : M RollbackResult :=
  try_finally
    (try_except
       (rollback_steps cfg)
       (fun e => returning AbortException
                   (mkRollbackResult false "" "" (Some "") "" (exn_str e))))
    _disconnect_ssh.

End Program.

(** A run of [execute_rollback] on an agent that holds [leftover] as its
    executor: the result (or an escaped exception) and the final state. *)
Definition run (rt : Runtime) (env : Env) (cfg : RollbackConfig)
  (leftover : option SSHExecutor) : Outcome RollbackResult * State :=
  execute_rollback rt env cfg (boot leftover).

(* ------------------------------------------------------------------ *)
(** ** Notions the statements use *)

(** The dictionary [execute_command] builds from what the transport did. *)
Definition command_result (rt : Runtime) (o : ExecOutcome) : CommandResult :=
  match o with
  | ExecDone out err code =>
      mkCommandResult (code =? 0) (py_strip rt out) (py_strip rt err) code
  | ExecRaise e => mkCommandResult false "" (exn_str e) (-1)
  end.

(** The state after one more remote command. *)
Definition sent (st : State) (op : Op) (cmd : string) (o : ExecOutcome) : State :=
  mkState (agent_ssh st) (temp_folder st) (n_connect st) (S (n_exec st))
          (n_clock st) (trace st ++ [EvExec op cmd o]).

(** The agent holds an executor with a client object and the flag set. *)
Definition live_on (c : SSHConfig) (st : State) : Prop :=
  agent_ssh st = Some (mkSSHExecutor c true true).

(** No session is open: the agent holds no executor, or one whose flag is
    down. *)
Definition disconnected (st : State) : Prop :=
  match agent_ssh st with
  | Some ex => connected ex = false
  | None => True
  end.

(** The steps of the run that change the site: stop, delete, copy, start. *)
Definition destructive (op : Op) : bool :=
  match op with
  | OpStop | OpDelete | OpCopy | OpStart => true
  | _ => false
  end.

(** What a failed stop, delete or start adds to the list of errors. *)
Definition stop_errors (r : CommandResult) : list string :=
  if success r then [] else ["Failed to stop site: " ++ stderr r].
Definition delete_errors (r : CommandResult) : list string :=
  if success r then [] else ["Failed to delete content: " ++ stderr r].
Definition start_errors (r : CommandResult) : list string :=
  if success r then [] else ["Failed to start site: " ++ stderr r].

(** The events of an attempt to connect. *)
Definition connect_event (ev : Event) : Prop :=
  match ev with EvConnect _ _ | EvSleep _ => True | _ => False end.

(** The connection attempts among the events. *)
Fixpoint attempts (evs : list Event) : nat :=
  match evs with
  | [] => 0
  | EvConnect _ _ :: rest => S (attempts rest)
  | _ :: rest => attempts rest
  end.

(** What the script of [get_site_state] prints on a host whose sites are
    given by [sites]: the state of the site, or the word of its [else]
    branch. *)
Definition site_state_script (sites : string -> option string) (name : string)
  : ExecOutcome :=
  match sites name with
  | Some state => ExecDone state "" 0
  | None => ExecDone "NotFound" "" 0
  end.

(** The number of archives [detect_backup_type] reads from the reply to its
    count command: 0 when the text is not a number. *)
Definition counted (rt : Runtime) (o : ExecOutcome) : Z :=
  match py_int rt (py_strip rt (stdout (command_result rt o))) with
  | Some n => n
  | None => 0
  end.

(** Where the preventive backup goes: a directory named after the clock,
    beside the backup. *)
Definition preventive_target (rt : Runtime) (env : Env) (cfg : RollbackConfig)
  (st : State) : string :=
  os_path_join rt (os_path_dirname rt (backup_path cfg))
               ("PreRollback_" ++ now_stamp env (n_clock st)).

(** The result of steps 4 to 10 without a staging directory, from the replies
    to the five commands and the path of the preventive backup. *)
Definition restored (rt : Runtime) (cfg : RollbackConfig) (mode target : string)
  (o1 o2 o3 o4 o5 : ExecOutcome) : RollbackResult :=
  let pv := if success (command_result rt o1) then Some target else None in
  let errs := (stop_errors (command_result rt o2) ++
               delete_errors (command_result rt o3) ++
               start_errors (command_result rt o5))%list in
  if robocopy_ok (return_code (command_result rt o4)) then
    mkRollbackResult true mode (backup_path cfg) pv ""
      match errs with
      | [] => ""
      | _ => "Completed with errors: " ++ join "; " errs
      end
  else
    mkRollbackResult false mode (backup_path cfg) pv ""
      ("Failed to copy files: " ++ stderr (command_result rt o4)).

(** The shapes a run can take: its result and what it did before the final
    disconnection.  [evs] are the events of the connection attempts. *)
Inductive RunShape (rt : Runtime) (cfg : RollbackConfig)
  : RollbackResult -> list Event -> Prop :=
| shape_no_connection evs :
    Forall connect_event evs ->
    RunShape rt cfg
      (mkRollbackResult false "" "" (Some "") ""
                        "Failed to establish SSH connection")
      (evs ++ [EvReturn AbortConnect])%list
| shape_count_failed evs c0 o0 :
    Forall connect_event evs ->
    success (command_result rt o0) = false ->
    RunShape rt cfg
      (mkRollbackResult false "" "" (Some "") ""
         ("Failed to check backup: " ++ stderr (command_result rt o0)))
      (evs ++ [EvExec OpCount c0 o0; EvReturn AbortClassify])%list
| shape_ambiguous evs c0 o0 :
    Forall connect_event evs ->
    success (command_result rt o0) = true ->
    1 < counted rt o0 ->
    RunShape rt cfg
      (mkRollbackResult false "" "" (Some "") ""
         ("Abort: " ++ str_of_Z (counted rt o0) ++ " ZIP files found (expected 1)"))
      (evs ++ [EvExec OpCount c0 o0; EvReturn AbortClassify])%list
| shape_archive evs c0 o0 c1 o1 :
    Forall connect_event evs ->
    success (command_result rt o0) = true ->
    counted rt o0 = 1 ->
    RunShape rt cfg
      (mkRollbackResult false "" "" (Some "") ""
         "name 'basePath' is not defined")
      (evs ++ [EvExec OpCount c0 o0; EvExec OpZipInfo c1 o1;
               EvReturn AbortException])%list
| shape_folder evs c0 o0 c1 o1 cp op cs os cd od cc oc ct ot target :
    Forall connect_event evs ->
    success (command_result rt o0) = true ->
    counted rt o0 < 1 ->
    RunShape rt cfg
      (restored rt cfg "folder" target op os od oc ot)
      (evs ++ [EvExec OpCount c0 o0; EvExec OpFolderInfo c1 o1;
               EvExec OpPreventive cp op; EvExec OpStop cs os;
               EvExec OpDelete cd od; EvExec OpCopy cc oc] ++
       (if robocopy_ok (return_code (command_result rt oc)) then
          [EvExec OpStart ct ot;
           EvReturn match (stop_errors (command_result rt os) ++
                           delete_errors (command_result rt od) ++
                           start_errors (command_result rt ot))%list with
                    | [] => EndClean
                    | _ => EndWithErrors
                    end]
        else [EvReturn AbortCopy]))%list.

(** Whether a step of the run succeeded, as [execute_rollback] judges it: by
    the exit code of [robocopy] for the copy, by exit code 0 otherwise. *)
Definition step_ok (rt : Runtime) (op : Op) (o : ExecOutcome) : bool :=
  match op with
  | OpCopy => robocopy_ok (return_code (command_result rt o))
  | _ => success (command_result rt o)
  end.

(** What [_connect_ssh] leaves behind: no command sent, the clock untouched,
    only events of connection attempts, and either a live executor with new
    managers or no session. *)
Definition after_connect (cfg : SSHConfig) (st : State) (ok : bool) (st1 : State)
  : Prop :=
  n_exec st1 = n_exec st /\ n_clock st1 = n_clock st
  /\ (exists evs, trace st1 = (trace st ++ evs)%list /\ Forall connect_event evs)
  /\ (if ok then live_on cfg st1 /\ temp_folder st1 = None
      else agent_ssh st1 = agent_ssh st
           \/ agent_ssh st1 = Some (mkSSHExecutor cfg true false)).

(** An executor as the methods of [SSHExecutor] leave it: the flag is only
    raised once a client object exists. *)
Definition sound_executor (x : option SSHExecutor) : Prop :=
  forall ex, x = Some ex -> connected ex = true -> client ex = true.

(* ------------------------------------------------------------------ *)
(** ** A runtime and worlds to run the model on *)

(** Plain ASCII text and POSIX paths: enough of [str.strip], [int] and
    [os.path] to evaluate the model on the inputs of the examples. *)
Module Sample.

Definition is_space (c : ascii) : bool :=
  let n := nat_of_ascii c in
  (Nat.eqb n 32) || ((Nat.leb 9 n) && (Nat.leb n 13)).

Fixpoint lstrip (s : string) : string :=
  match s with
  | String c rest => if is_space c then lstrip rest else s
  | EmptyString => EmptyString
  end.

Fixpoint rstrip (s : string) : string :=
  match s with
  | EmptyString => EmptyString
  | String a rest =>
      match rstrip rest with
      | EmptyString => if is_space a then EmptyString else String a EmptyString
      | r => String a r
      end
  end.

Definition strip (s : string) : string := rstrip (lstrip s).

Definition digit_val (c : ascii) : option Z :=
  let n := Z.of_nat (nat_of_ascii c) in
  if (48 <=? n) && (n <=? 57) then Some (n - 48) else None.

Fixpoint digits (acc : Z) (s : string) : option Z :=
  match s with
  | EmptyString => Some acc
  | String c rest =>
      match digit_val c with
      | Some d => digits (10 * acc + d) rest
      | None => None
      end
  end.

Definition unsigned (s : string) : option Z :=
  if nonempty s then digits 0 s else None.

Definition int (s : string) : option Z :=
  match strip s with
  | String "-" rest => option_map Z.opp (unsigned rest)
  | String "+" rest => unsigned rest
  | t => unsigned t
  end.

Definition starts_with_slash (s : string) : bool :=
  match s with String "/" _ => true | _ => false end.

Definition ends_with_slash (s : string) : bool :=
  negb (String.eqb (rstrip_char "/" s) s).

Definition path_join (a b : string) : string :=
  if starts_with_slash b then b
  else if negb (nonempty a) || ends_with_slash a then a ++ b
  else a ++ "/" ++ b.

Definition basename (p : string) : string :=
  last (split_on "/" p) "".

Definition dirname (p : string) : string :=
  let parts := split_on "/" p in
  let head := join "/" (removelast parts) ++
              (if Nat.ltb 1 (length parts) then "/" else "") in
  if nonempty (rstrip_char "/" head) then rstrip_char "/" head else head.

Definition runtime : Runtime :=
  mkRuntime strip int (fun _ => true) path_join dirname basename (fun p => p).

(** A world that accepts the first connection attempt and answers the k-th
    remote command with the k-th reply of a list (a failure of the transport
    once the list is used up). *)
Definition scripted (replies : list ExecOutcome) : Env :=
  mkEnv (fun _ => ConnOk)
        (fun k _ => nth k replies (ExecRaise (SocketError "closed")))
        (fun _ => "20240101_120000")
        (fun _ => true).

(** A world in which every connection attempt fails the same way. *)
Definition unreachable (e : PyExn) : Env :=
  mkEnv (fun _ => ConnRaise e)
        (fun _ _ => ExecRaise (SocketError "closed"))
        (fun _ => "20240101_120000")
        (fun _ => true).

Definition ssh_cfg : SSHConfig :=
  mkSSHConfig "192.168.1.100" "admin" 22 (Some "secret") None 30.

Definition cfg : RollbackConfig :=
  mkRollbackConfig "MyWebsite" "/sites/MyWebsite" "/backups/MyWebsite/B1" ssh_cfg.

Definition ok (out : string) : ExecOutcome := ExecDone out "" 0.
Definition ko (err : string) : ExecOutcome := ExecDone "" err 1.

(** An executor that is connected, and a state that holds it. *)
Definition live : SSHExecutor := mkSSHExecutor ssh_cfg true true.
Definition live_state : State := mkState (Some live) None 1 0 0 [].

(** An executor just built, and a state that holds it. *)
Definition idle : SSHExecutor := mkSSHExecutor ssh_cfg false false.
Definition idle_state : State := mkState (Some idle) None 0 0 0 [].

Definition stamp : string := "2024-01-01 10:00:00".

(** No archive in the backup directory; only the stop command fails. *)
Definition stop_fails : Env :=
  scripted [ok "0"; ok stamp; ok "Backup created"; ko "site is not started";
            ok ""; ExecDone "" "" 1; ok ""].

(** No archive; only the preventive backup fails. *)
Definition preventive_fails : Env :=
  scripted [ok "0"; ok stamp; ko "Access denied"; ok ""; ok "";
            ExecDone "" "" 1; ok ""].

(** No archive; the restore copy ends with exit code 8. *)
Definition copy_fails : Env :=
  scripted [ok "0"; ok stamp; ok "Backup created"; ok ""; ok "";
            ExecDone "" "Access is denied" 8; ok ""].

(** One archive, [site_20240101.zip], on a host that would carry out every
    command it is sent. *)
Definition one_archive : Env :=
  scripted [ok "1"; ok ("site_20240101.zip|" ++ stamp); ok "Created";
            ok "Extraction complete"; ok "Backup created"; ok ""; ok "";
            ExecDone "" "" 1; ok ""; ok "Cleanup complete"].

(** Three archives. *)
Definition three_archives : Env := scripted [ok "3"].

(** The count command prints something that is not a number. *)
Definition garbled_count : Env := scripted [ok "Get-ChildItem : warning"; ok stamp].

(** The server rejects the credentials at every attempt. *)
Definition bad_credentials : Env :=
  unreachable (AuthenticationException "Authentication failed.").

(** A host without any site, which runs the script of [get_site_state]. *)
Definition no_site : Env :=
  mkEnv (fun _ => ConnOk)
        (fun _ _ => site_state_script (fun _ => None) "NoSuchSite")
        (fun _ => "20240101_120000")
        (fun _ => true).

End Sample.
(* ------------------------------------------------------------------ *)
(** ** More of the code: the rest of the tools, and the debugger agent *)

(** [needle in hay] for two strings. *)
Fixpoint contains (needle hay : string) : bool :=
  if String.prefix needle hay then true
  else match hay with
       | EmptyString => false
       | String _ rest => contains needle rest
       end.

(** The line feed, on which [_parse_sites] splits. *)
Definition lf : ascii := ascii_of_nat 10.

(** [IISSite] (iis_tool.py) *)
Record IISSite : Type := mkIISSite {
  iis_name : string;
  iis_id : string;
  iis_bindings : list string;
  iis_state : string;
  iis_physical_path : string
}.

(** The dictionary [restart_site] returns. *)
Record RestartResult : Type := mkRestartResult {
  rs_success : bool;
  rs_message : string
}.

(** A Python dictionary with text keys, in insertion order: assigning to a
    key that is present replaces its value in place. *)
Fixpoint dict_set {V} (k : string) (v : V) (d : list (string * V))
  : list (string * V) :=
  match d with
  | [] => [(k, v)]
  | (k', v') :: rest =>
      if String.eqb k' k then (k, v) :: rest else (k', v') :: dict_set k v rest
  end.

Fixpoint dict_get {V} (k : string) (d : list (string * V)) : option V :=
  match d with
  | [] => None
  | (k', v) :: rest => if String.eqb k' k then Some v else dict_get k rest
  end.

(** [ErrorCategory] (debugger_agent.py) and its values. *)
Inductive ErrorCategory : Type :=
| SSH_CONNECTION | AUTHENTICATION | IIS_OPERATION | FILE_OPERATION
| BACKUP_DETECTION | EMAIL | UNKNOWN.

Definition category_value (c : ErrorCategory) : string :=
  match c with
  | SSH_CONNECTION => "ssh_connection"
  | AUTHENTICATION => "authentication"
  | IIS_OPERATION => "iis_operation"
  | FILE_OPERATION => "file_operation"
  | BACKUP_DETECTION => "backup_detection"
  | EMAIL => "email"
  | UNKNOWN => "unknown"
  end.

(** An entry of [error_patterns]. *)
Record Pattern : Type := mkPattern {
  pt_category : ErrorCategory;
  pt_causes : list string;
  pt_fixes : list string;
  pt_severity : string;
  pt_diagnostic : string
}.

Record ErrorAnalysis : Type := mkErrorAnalysis {
  ea_category : ErrorCategory;
  ea_message : string;
  ea_possible_causes : list string;
  ea_suggested_fixes : list string;
  ea_severity : string;
  ea_diagnostic_command : option string
}.

Record DiagnosticReport : Type := mkDiagnosticReport {
  dr_errors : list ErrorAnalysis;
  dr_overall_health : string;
  dr_recommendations : list string;
  dr_requires_attention : bool
}.

(** An entry of the dictionary [run_diagnostics] returns. *)
Record DiagEntry : Type := mkDiagEntry {
  dg_success : bool;
  dg_output : string;
  dg_error : string
}.

(** [DebuggerAgent.error_patterns], in the order the dictionary is written,
    which is the order a [for] loop visits it. *)
Definition error_patterns : list (string * Pattern) :=
  [ ("connection_refused",
     mkPattern SSH_CONNECTION
       ["SSH service not running on Windows Server";
        "Firewall blocking SSH port (22)";
        "Wrong IP address or hostname";
        "Network connectivity issues"]
       ["Ensure OpenSSH service is installed and running: Get-Service sshd";
        "Configure firewall to allow port 22";
        "Verify IP address and hostname";
        "Check network connectivity with ping"]
       "high"
       "Test-NetConnection -Port 22 -ComputerName <host>");
    ("authentication_failed",
     mkPattern AUTHENTICATION
       ["Incorrect username or password";
        "SSH key not configured properly";
        "Account locked out";
        "Authentication method not allowed"]
       ["Verify username and password in .env file";
        "Check SSH key path and permissions";
        "Unlock account if locked";
        "Ensure password authentication is enabled in sshd_config"]
       "high"
       "Get-LocalUser | Where-Object Enabled -eq True");
    ("site_not_found",
     mkPattern IIS_OPERATION
       ["Site name doesn't exist in IIS";
        "Site name typo";
        "Site is in different IIS server"]
       ["List IIS sites: appcmd list site";
        "Verify exact site name";
        "Check correct IIS server"]
       "medium"
       "appcmd list site");
    ("path_not_found",
     mkPattern FILE_OPERATION
       ["Incorrect path provided";
        "Path doesn't exist on remote server";
        "Drive letter issue on Windows";
        "Permissions issue"]
       ["Verify path exists on remote server";
        "Use correct Windows path format (E:\...)";
        "Check permissions on parent folders";
        "Use PowerShell to test path: Test-Path"]
       "medium"
       ("Test-Path " ++ dq ++ "<path>" ++ dq));
    ("access_denied",
     mkPattern FILE_OPERATION
       ["Insufficient permissions on files/folders";
        "File in use by another process";
        "Antivirus blocking access"]
       ["Run with elevated privileges";
        "Close applications using the files";
        "Temporarily disable antivirus";
        "Take ownership of files"]
       "high"
       ("icacls " ++ dq ++ "<path>" ++ dq));
    ("no_zip_found",
     mkPattern BACKUP_DETECTION
       ["No .zip file in backup directory";
        "Backup directory empty";
        "Wrong backup path specified"]
       ["Verify backup directory has .zip file";
        "Check backup path is correct";
        "List files in backup directory"]
       "medium"
       ("Get-ChildItem -Path " ++ dq ++ "<path>" ++ dq ++ " -Filter *.zip"));
    ("multiple_zips_found",
     mkPattern BACKUP_DETECTION
       ["Multiple .zip files in backup directory";
        "Backup directory not cleaned up";
        "Old backup files not removed"]
       ["Use folder mode for multiple backups";
        "Remove extra .zip files";
        "Specify exact backup file path"]
       "medium"
       ("Get-ChildItem -Path " ++ dq ++ "<path>" ++ dq ++
        " -Filter *.zip | Select-Object Name")) ].

(** The analysis of a message no pattern matches. *)
Definition generic_analysis (error_message : string) : ErrorAnalysis :=
  mkErrorAnalysis UNKNOWN error_message
    ["Unexpected error condition";
     "Resource exhaustion";
     "Software bug or limitation"]
    ["Review detailed error logs";
     "Try with verbose logging enabled";
     "Check system resources (memory, disk space)"]
    "medium" None.

(** The score [analyze_errors] gives a severity. *)
Definition severity_score (severity : string) : Z :=
  if String.eqb severity "high" || String.eqb severity "critical" then 2
  else if String.eqb severity "medium" then 1
  else 0.

(** [max(l)] and [sum(l)] for a list of integers ([max] is only called on a
    list that is not empty). *)
Definition py_max (l : list Z) : Z :=
  match l with
  | [] => 0
  | x :: rest => fold_left Z.max rest x
  end.
Definition py_sum (l : list Z) : Z := fold_left Z.add l 0.

(** The list of sites [_parse_sites] reads is written one site a line, the
    fields separated by bars and the bindings by commas. *)
Definition site_line (s : IISSite) : string :=
  iis_name s ++ "|" ++ iis_id s ++ "|" ++ iis_state s ++ "|" ++
  iis_physical_path s ++ "|" ++ join "," (iis_bindings s).

(** The character does not occur in the text. *)
Fixpoint without (c : ascii) (s : string) : bool :=
  match s with
  | EmptyString => true
  | String a rest => negb (Ascii.eqb a c) && without c rest
  end.

(** A site that [site_line] writes on one line without ambiguity: no bar
    and no line feed in any field, no comma in a binding, at least one
    binding, fields that [strip] leaves alone, and a line that is not
    blank. *)
Definition plain_site (rt : Runtime) (s : IISSite) : Prop :=
  Forall (fun f => without "|" f = true /\ without lf f = true
                   /\ py_strip rt f = f)
         [iis_name s; iis_id s; iis_state s; iis_physical_path s]
  /\ Forall (fun b => without "|" b = true /\ without lf b = true
                      /\ without "," b = true)
            (iis_bindings s)
  /\ iis_bindings s <> []
  /\ nonempty (py_strip rt (site_line s)) = true.

Section Extensions.

Variable rt : Runtime.
Variable env : Env.
(** [str.lower] *)
Variable py_lower : string -> string.

(* ------------------------------------------------------------------ *)
(** *** ssh_tool.py *)

Definition execute_script (script_path : string) : M CommandResult :=
  let command := "& " ++ dq ++ script_path ++ dq in
  execute_command rt env OpOther command true.

(** [__enter__] connects and returns the executor itself; [__exit__]
    disconnects and returns [None], so an exception of the block goes on. *)
Definition __enter__ : M unit := connect env ;;; ret tt.
Definition __exit__ : M unit := disconnect.

(** [with ssh: body], for the executor the state holds. *)
Definition with_session {A} (body : M A) : M A :=
  __enter__ ;;; try_finally body __exit__.

(* ------------------------------------------------------------------ *)
(** *** iis_tool.py *)

Definition list_sites_command : string :=
  "appcmd list site /xml /config:* | " ++
  "powershell -Command " ++ dq ++
  "$input | " ++
  "Select-Xml -XPath '//site' | " ++
  "%{ " ++
  "$node = $_.Node; " ++
  "$bindings = $node.bindings.binding | " ++
  "Select-Object @{Name='name'; Expression={$node.name}}, " ++
  "@{Name='id'; Expression={$node.id}}, " ++
  "@{Name='bindings'; Expression={$bindings}}, " ++
  "@{Name='state'; Expression={$node.state}}, " ++
  "@{Name='physical_path'; Expression={$node.application.virtualDirectory.path}}" ++
  "}" ++ dq ++ " ".

(** One turn of the loop of [_parse_sites]: a blank line, or a line of fewer
    than five fields, adds nothing; nothing in the body raises. *)
Definition parse_site_line (line : string) : option IISSite :=
  if negb (nonempty (py_strip rt line)) then None
  else
    match split_on "|"%char line with
    | p0 :: p1 :: p2 :: p3 :: p4 :: _ =>
        Some (mkIISSite (py_strip rt p0) (py_strip rt p1)
                        (split_on ","%char p4)
                        (py_strip rt p2) (py_strip rt p3))
    | _ => None
    end.

Fixpoint parse_site_lines (lines : list string) : list IISSite :=
  match lines with
  | [] => []
  | line :: rest =>
      match parse_site_line line with
      | Some site => site :: parse_site_lines rest
      | None => parse_site_lines rest
      end
  end.

Definition _parse_sites (output : string) : list IISSite :=
  parse_site_lines (split_on lf (py_strip rt output)).

Definition list_sites : M (list IISSite) :=
  result <- execute_command rt env OpOther list_sites_command true ;;
  if negb (success result) then ret []
  else ret (_parse_sites (stdout result)).

Definition get_site (name : string) : M (option IISSite) :=
  sites <- list_sites ;;
  ret (find (fun site => String.eqb (py_lower (iis_name site)) (py_lower name))
            sites).

(** [time.sleep(2)] between the two commands is an event of the trace. *)
Definition restart_site (name : string) : M RestartResult :=
  stop_result <- stop_site rt env name ;;
  if negb (success stop_result) then
    ret (mkRestartResult false ("Failed to stop site: " ++ stderr stop_result))
  else
    log (EvSleep 2) ;;;
    start_result <- start_site rt env name ;;
    if success start_result then
      ret (mkRestartResult true ("Successfully restarted site: " ++ name))
    else
      ret (mkRestartResult false ("Failed to start site: " ++ stderr start_result)).

(* ------------------------------------------------------------------ *)
(** *** developer_agent.py *)

(** The port and the timeout are the defaults of [SSHConfig]. *)
Definition execute_rollback_simple
  (site_name site_path backup_path ssh_host ssh_username : string)
  (ssh_password ssh_key_path : option string) : M RollbackResult :=
  let config :=
    mkRollbackConfig site_name site_path backup_path
      (mkSSHConfig ssh_host ssh_username 22 ssh_password ssh_key_path 30) in
  execute_rollback rt env config.

(* ------------------------------------------------------------------ *)
(** *** debugger_agent.py *)

(** The first pattern whose name occurs in the message, in dictionary
    order. *)
Fixpoint match_pattern (error_lower : string) (patterns : list (string * Pattern))
  : option Pattern :=
  match patterns with
  | [] => None
  | (pattern_name, pattern_data) :: rest =>
      if contains pattern_name error_lower then Some pattern_data
      else match_pattern error_lower rest
  end.

(** [analyze_error(error_message)]; the [context] argument is not read. *)
Definition analyze_error (error_message : string) : ErrorAnalysis :=
  let error_lower := py_lower error_message in
  match match_pattern error_lower error_patterns with
  | Some matched_pattern =>
      mkErrorAnalysis (pt_category matched_pattern) error_message
        (pt_causes matched_pattern) (pt_fixes matched_pattern)
        (pt_severity matched_pattern) (Some (pt_diagnostic matched_pattern))
  | None => generic_analysis error_message
  end.

(** The recommendation an analysis contributes: the first of its fixes. *)
Definition recommendation (analysis : ErrorAnalysis) : list string :=
  match ea_suggested_fixes analysis with
  | fix1 :: _ => ["[" ++ category_value (ea_category analysis) ++ "] " ++ fix1]
  | [] => []
  end.

Definition overall_health_of (severity_scores : list Z) : string :=
  match severity_scores with
  | [] => "healthy"
  | _ =>
      if py_max severity_scores >=? 2 then "critical"
      else if py_sum severity_scores >? Z.of_nat (length severity_scores)
           then "degraded"
      else "warning"
  end.

Definition analyze_errors (errors : list string) : DiagnosticReport :=
  let analyses := map analyze_error errors in
  let severity_scores := map (fun a => severity_score (ea_severity a)) analyses in
  let recommendations := flat_map recommendation analyses in
  let overall_health := overall_health_of severity_scores in
  let requires_attention :=
    String.eqb overall_health "critical" || String.eqb overall_health "degraded" in
  mkDiagnosticReport analyses overall_health recommendations requires_attention.

(** The loop of [run_diagnostics] over the commands left, with the dictionary
    built so far. *)
Fixpoint diagnostics_loop (diagnostics : list string)
  (results : list (string * DiagEntry)) : M (list (string * DiagEntry)) :=
  match diagnostics with
  | [] => ret results
  | diag :: rest =>
      entry <- try_except
                 (result <- execute_command rt env OpOther diag true ;;
                  ret (mkDiagEntry (success result) (stdout result)
                                   (stderr result)))
                 (fun e => ret (mkDiagEntry false "" (exn_str e))) ;;
      diagnostics_loop rest (dict_set diag entry results)
  end.

(** [run_diagnostics(ssh, diagnostics)], for the executor the state holds. *)
Definition run_diagnostics (diagnostics : list string)
  : M (list (string * DiagEntry)) :=
  diagnostics_loop diagnostics [].

End Extensions.

(** Inputs for the properties of this part. *)
Module Cases.

(** Lower case of plain ASCII text. *)
Definition lower_char (c : ascii) : ascii :=
  let n := nat_of_ascii c in
  if Nat.leb 65 n && Nat.leb n 90 then ascii_of_nat (n + 32) else c.

Fixpoint lower (s : string) : string :=
  match s with
  | EmptyString => EmptyString
  | String c rest => String (lower_char c) (lower rest)
  end.

Definition default_site : IISSite :=
  mkIISSite "Default Web Site" "1" ["http/*:80:"; "https/*:443:"] "Started"
            "C:\inetpub\wwwroot".

Definition shop_site : IISSite :=
  mkIISSite "Shop" "2" ["http/*:8080:"] "Stopped" "E:\Web Sites\Shop".

(** A state whose backup manager recorded a staging directory. *)
Definition staged_state : State :=
  mkState (Some Sample.live) (Some "E:\Temp\Rollback_20240101_120000") 1 0 0 [].

End Cases.

(* ------------------------------------------------------------------ *)
(** * Properties *)

(** Command lines and messages stay folded while the proofs run the model. *)

Lemma append_empty_r (s : string) : s ++ "" = s.
Proof. induction s as [|a s IH]; cbn; [reflexivity|]. now rewrite IH. Qed.

Arguments powershell_wrap : simpl never.
Arguments String.append : simpl never.

(** ** The remote executor *)

(** On a live executor [execute_command] sends the command and turns what
    the transport did into a result. *)
Lemma execute_command_live rt env op cmd ps st c :
  live_on c st ->
  execute_command rt env op cmd ps st =
    (Val (command_result rt (exec_reply env (n_exec st) (if ps then powershell_wrap cmd else cmd))),
     sent st op (if ps then powershell_wrap cmd else cmd)
          (exec_reply env (n_exec st) (if ps then powershell_wrap cmd else cmd))).
Proof.
  unfold live_on, execute_command, with_ssh, try_except, bind, client_exec, with_ssh.
  intros H. rewrite H. cbn. rewrite H. cbn.
  destruct (exec_reply env (n_exec st) _) eqn:E; reflexivity.
Qed.

Lemma execute_command_down rt env op cmd ps st ex :
  agent_ssh st = Some ex -> connected ex = false ->
  execute_command rt env op cmd ps st =
    (Exn (RuntimeError "Not connected to SSH server. Call connect() first."), st).
Proof.
  unfold execute_command, with_ssh. intros -> ->. reflexivity.
Qed.

(** C6.  [execute_command] raises exactly when the executor is not
    connected; on a connected executor it returns a result whatever the
    transport does, and a failure of the remote execution comes back as the
    result with success = false, an empty output, the text of the failure as
    standard error and return code -1. *)
Theorem execute_command_raises_iff_not_connected rt env op cmd ps st ex :
  agent_ssh st = Some ex ->
  ((exists e st', execute_command rt env op cmd ps st = (Exn e, st'))
     <-> connected ex = false)
  /\ (connected ex = true ->
      exists r st', execute_command rt env op cmd ps st = (Val r, st'))
  /\ (connected ex = true ->
      forall e,
        client ex = true ->
        exec_reply env (n_exec st) (if ps then powershell_wrap cmd else cmd)
          = ExecRaise e ->
        exists st',
          execute_command rt env op cmd ps st
            = (Val (mkCommandResult false "" (exn_str e) (-1)), st')).
Proof.
  intros Hex. unfold execute_command, with_ssh. rewrite Hex.
  destruct (connected ex) eqn:Hc; cbn [negb].
  - assert (Hval : exists r st',
               try_except
                 (r <- client_exec env op (if ps then powershell_wrap cmd else cmd) ;;
                  let '(stdout_content, stderr_content, exit_code) := r in
                  ret (mkCommandResult (exit_code =? 0)
                         (py_strip rt stdout_content)
                         (py_strip rt stderr_content) exit_code))
                 (fun e => ret (mkCommandResult false "" (exn_str e) (-1))) st
               = (Val r, st')).
    { unfold try_except, bind, client_exec, with_ssh. rewrite Hex.
      destruct (client ex); cbn [negb]; [|do 2 eexists; reflexivity].
      destruct (exec_reply env (n_exec st) _) as [out err code|e];
        do 2 eexists; reflexivity. }
    split; [|split].
    + split; [|discriminate].
      intros (e & st' & H). exfalso.
      destruct Hval as (r & st1 & Hv). rewrite Hv in H. discriminate.
    + intros _. exact Hval.
    + intros _ e Hcl Hr.
      unfold try_except, bind, client_exec, with_ssh. rewrite Hex, Hcl. cbn [negb].
      rewrite Hr. eexists. reflexivity.
  - split; [|split; discriminate].
    split; [reflexivity|]. intros _. do 2 eexists. reflexivity.
Qed.

Arguments copy_command : simpl never.
Arguments count_command : simpl never.
Arguments site_state_command : simpl never.
Arguments stop_command : simpl never.
Arguments start_command : simpl never.
Arguments delete_command : simpl never.
Arguments preventive_command : simpl never.
Arguments zip_info_command : simpl never.
Arguments folder_info_command : simpl never.
Arguments temp_folder_command : simpl never.
Arguments extract_command : simpl never.
Arguments cleanup_command : simpl never.
Arguments exn_str : simpl never.
Arguments str_of_Z : simpl never.
Arguments join : simpl never.

(** ** The site controller *)

Lemma robocopy_ok_spec code :
  robocopy_ok code = true <-> code = 0 \/ code = 1 \/ code = 2.
Proof. unfold robocopy_ok. rewrite !orb_true_iff, !Z.eqb_eq. tauto. Qed.

(** C7.  [copy_files] reports success = true exactly when the exit code of
    the copy tool is 0, 1 or 2, and reports a failure for every exit code
    from 8 on; the result carries the exit code. *)
Theorem copy_files_success_iff_exit_code rt env src dst st c out err code :
  live_on c st ->
  exec_reply env (n_exec st) (copy_command src dst) = ExecDone out err code ->
  exists r st',
    copy_files rt env src dst st = (Val r, st')
    /\ copy_return_code r = code
    /\ (copy_success r = true <-> code = 0 \/ code = 1 \/ code = 2)
    /\ (8 <= code -> copy_success r = false).
Proof.
  intros Hl Hr. unfold copy_files, bind.
  rewrite (execute_command_live _ _ _ _ _ _ _ Hl). cbn [command_result]. rewrite Hr.
  cbn [command_result return_code].
  destruct (robocopy_ok code) eqn:Hk.
  - do 2 eexists. split; [reflexivity|]. cbn. split; [reflexivity|]. split.
    + rewrite <- robocopy_ok_spec. tauto.
    + apply robocopy_ok_spec in Hk. lia.
  - do 2 eexists. split; [reflexivity|]. cbn. split; [reflexivity|]. split.
    + rewrite <- robocopy_ok_spec, Hk. split; discriminate.
    + reflexivity.
Qed.

(** Whenever the query succeeds [get_site_state] returns the text it
    printed, never [None]. *)
Lemma get_site_state_of_successful_query rt env name st c out err :
  live_on c st ->
  exec_reply env (n_exec st) (powershell_wrap (site_state_command name))
    = ExecDone out err 0 ->
  fst (get_site_state rt env name st)
    = Val (Some (py_strip rt (py_strip rt out))).
Proof.
  intros Hl Hr. unfold get_site_state, bind.
  rewrite (execute_command_live _ _ _ _ _ _ _ Hl). rewrite Hr. reflexivity.
Qed.

(** ** Connecting *)

(** The three attempts of [connect], unfolded. *)
Lemma connect_fresh env st ex :
  agent_ssh st = Some ex -> connected ex = false ->
  let k := n_connect st in
  let w := wait_exponential 1 2 10 in
  connect env st =
  match connect_reply env k with
  | ConnOk => (Val true, mkState (Some (mkSSHExecutor (config ex) true true)) (temp_folder st) (S k) (n_exec st) (n_clock st) (trace st ++ [EvConnect k ConnOk]))
  | ConnRaise e1 =>
    match connect_reply env (S k) with
    | ConnOk => (Val true, mkState (Some (mkSSHExecutor (config ex) true true)) (temp_folder st) (S (S k)) (n_exec st) (n_clock st) (((trace st ++ [EvConnect k (ConnRaise e1)]) ++ [EvSleep (w 1%nat)]) ++ [EvConnect (S k) ConnOk]))
    | ConnRaise e2 =>
      match connect_reply env (S (S k)) with
      | ConnOk => (Val true, mkState (Some (mkSSHExecutor (config ex) true true)) (temp_folder st) (S (S (S k))) (n_exec st) (n_clock st) (((((trace st ++ [EvConnect k (ConnRaise e1)]) ++ [EvSleep (w 1%nat)]) ++ [EvConnect (S k) (ConnRaise e2)]) ++ [EvSleep (w 2%nat)]) ++ [EvConnect (S (S k)) ConnOk]))
      | ConnRaise e3 => (Exn (RetryError e3), mkState (Some (mkSSHExecutor (config ex) true false)) (temp_folder st) (S (S (S k))) (n_exec st) (n_clock st) (((((trace st ++ [EvConnect k (ConnRaise e1)]) ++ [EvSleep (w 1%nat)]) ++ [EvConnect (S k) (ConnRaise e2)]) ++ [EvSleep (w 2%nat)]) ++ [EvConnect (S (S k)) (ConnRaise e3)]))
      end
    end
  end.
Proof.
  intros Hex Hc. cbv zeta.
  unfold connect, with_ssh. rewrite Hex, Hc.
  unfold bind, set_ssh, try_except, _connect_with_retry, retry. cbn [Nat.sub retrying].
  unfold try_except, bind, client_connect, log, raise, set_connected, with_ssh, set_ssh, ret.
  cbn -[wait_exponential].
  destruct (connect_reply env (n_connect st)); cbn -[wait_exponential]; [reflexivity|].
  destruct (connect_reply env (S (n_connect st))); cbn -[wait_exponential]; [reflexivity|].
  destruct (connect_reply env (S (S (n_connect st)))); cbn -[wait_exponential]; reflexivity.
Qed.


Lemma connect_new_executor env cfg st :
  agent_ssh st = Some (mkSSHExecutor cfg false false) ->
  exists ok st1,
    try_except (connect env ;;; set_temp_folder None ;;; ret true)%monad
               (fun _ => ret false) st = (Val ok, st1)
    /\ n_exec st1 = n_exec st /\ n_clock st1 = n_clock st
    /\ (exists evs, trace st1 = (trace st ++ evs)%list /\ Forall connect_event evs)
    /\ (if ok then live_on cfg st1 /\ temp_folder st1 = None
        else agent_ssh st1 = Some (mkSSHExecutor cfg true false)).
Proof.
  intros H0. unfold try_except, bind.
  rewrite (connect_fresh env st _ H0 eq_refl). cbn [config].
  destruct (connect_reply env (n_connect st)).
  { exists true. eexists. split; [reflexivity|]. cbn. repeat split.
    eexists. split; [reflexivity|]. repeat constructor. }
  destruct (connect_reply env (S (n_connect st))).
  { exists true. eexists. split; [reflexivity|]. cbn -[wait_exponential]. repeat split.
    eexists. rewrite <- !app_assoc. split; [reflexivity|]. repeat constructor. }
  destruct (connect_reply env (S (S (n_connect st)))).
  { exists true. eexists. split; [reflexivity|]. cbn -[wait_exponential]. repeat split.
    eexists. rewrite <- !app_assoc. split; [reflexivity|]. repeat constructor. }
  exists false. eexists. split; [reflexivity|]. cbn -[wait_exponential]. repeat split.
  eexists. rewrite <- !app_assoc. split; [reflexivity|]. repeat constructor.
Qed.

Lemma connect_ssh_cases rt env cfg st :
  exists ok st1,
    _connect_ssh rt env cfg st = (Val ok, st1) /\ after_connect cfg st ok st1.
Proof.
  assert (Hfail : exists ok st1,
    (Val false, st) = (Val ok, st1) /\ after_connect cfg st ok st1).
  { exists false, st. split; [reflexivity|]. unfold after_connect. repeat split; auto.
    exists []. rewrite app_nil_r. split; [reflexivity|constructor]. }
  assert (Hgo : exists ok st1,
    try_except
      (ex <- ret (mkSSHExecutor cfg false false) ;;
       set_ssh (Some ex) ;;; connect env ;;; set_temp_folder None ;;; ret true)%monad
      (fun _ => ret false) st = (Val ok, st1)
    /\ after_connect cfg st ok st1).
  { destruct (connect_new_executor env cfg
                (mkState (Some (mkSSHExecutor cfg false false)) (temp_folder st)
                   (n_connect st) (n_exec st) (n_clock st) (trace st)) eq_refl)
      as (ok & st1 & E & H1 & H2 & H3 & H4).
    exists ok, st1. split.
    - revert E. unfold try_except, bind, ret, set_ssh. cbn. auto.
    - unfold after_connect. repeat split; auto. destruct ok; auto. }
  unfold _connect_ssh, SSHExecutor_init, _validate_config.
  destruct (negb (truthy (password cfg)) && negb (truthy (key_path cfg))).
  { exact Hfail. }
  destruct (key_path cfg) as [kp|]; [|exact Hgo].
  destruct (nonempty kp); [|exact Hgo].
  destruct (negb (file_exists env (os_path_expanduser rt kp))); [exact Hfail|exact Hgo].
Qed.

(** ** Steps 4 to 10 *)

Ltac step c Hl :=
  rewrite execute_command_live with (c := c) by exact Hl;
  cbn [sent n_exec agent_ssh n_clock trace temp_folder n_connect].

Lemma restore_live rt env cfg mode src st c :
  live_on c st ->
  let n := n_exec st in
  let target := preventive_target rt env cfg st in
  let c1 := powershell_wrap (preventive_command (site_path cfg) target) in
  let c2 := stop_command (site_name cfg) in
  let c3 := powershell_wrap (delete_command (site_path cfg) true) in
  let c4 := copy_command src (site_path cfg) in
  let c5 := start_command (site_name cfg) in
  let o1 := exec_reply env n c1 in
  let o2 := exec_reply env (S n) c2 in
  let o3 := exec_reply env (S (S n)) c3 in
  let o4 := exec_reply env (S (S (S n))) c4 in
  let o5 := exec_reply env (S (S (S (S n)))) c5 in
  exists st',
    restore rt env cfg mode src "" st =
      (Val (restored rt cfg mode target o1 o2 o3 o4 o5), st')
    /\ agent_ssh st' = agent_ssh st
    /\ trace st' =
         (trace st ++
          [EvExec OpPreventive c1 o1; EvExec OpStop c2 o2;
           EvExec OpDelete c3 o3; EvExec OpCopy c4 o4] ++
          (if robocopy_ok (return_code (command_result rt o4)) then
             [EvExec OpStart c5 o5;
              EvReturn match (stop_errors (command_result rt o2) ++
                              delete_errors (command_result rt o3) ++
                              start_errors (command_result rt o5))%list with
                       | [] => EndClean
                       | _ => EndWithErrors
                       end]
           else [EvReturn AbortCopy]))%list.
Proof.
  intros Hl. unfold live_on in Hl. unfold preventive_target, restored. cbv zeta.
  unfold restore, create_preventive_backup, stop_site, delete_site_content,
    copy_files, start_site, now_text, bind, stop_errors, delete_errors, start_errors.
  step c Hl.
  destruct (success (command_result rt (exec_reply env (n_exec st) _))); cbn [ret pv_backup_path];
  step c Hl;
  (destruct (success (command_result rt (exec_reply env (S (n_exec st)) _)));
  step c Hl;
  (destruct (success (command_result rt (exec_reply env (S (S (n_exec st))) _)));
  step c Hl;
  (destruct (robocopy_ok (return_code (command_result rt (exec_reply env (S (S (S (n_exec st)))) _))));
   cbn [ret copy_success negb copy_stderr returning bind log];
   [ step c Hl;
     destruct (success (command_result rt (exec_reply env (S (S (S (S (n_exec st))))) _)))
   | ]))); cbn; eexists; (split; [reflexivity|split; [reflexivity|]]); cbn;
   rewrite <- ?app_assoc; reflexivity.
Qed.

(** *** The classifier *)

Lemma get_zip_info_live rt env path st c :
  live_on c st ->
  exists info st',
    _get_zip_info rt env path st = (Val info, st')
    /\ live_on c st'
    /\ n_exec st' = S (n_exec st)
    /\ trace st' =
         (trace st ++
          [EvExec OpZipInfo (powershell_wrap (zip_info_command path))
             (exec_reply env (n_exec st)
                (powershell_wrap (zip_info_command path)))])%list.
Proof.
  intros Hl. unfold live_on in *. unfold _get_zip_info, bind, now.
  step c Hl.
  destruct (success _ && nonempty _);
    [destruct (split_on _ _) as [|p0 [|p1 ps]];
     [| |destruct (strptime_ok rt (py_strip rt p1))]|];
    do 2 eexists; (split; [reflexivity|]); cbn; auto.
Qed.

Lemma get_folder_info_live rt env path st c :
  live_on c st ->
  exists info st',
    _get_folder_info rt env path st = (Val info, st')
    /\ live_on c st'
    /\ n_exec st' = S (n_exec st)
    /\ n_clock st' = S (n_clock st)
    /\ trace st' =
         (trace st ++
          [EvExec OpFolderInfo (powershell_wrap (folder_info_command path))
             (exec_reply env (n_exec st)
                (powershell_wrap (folder_info_command path)))])%list.
Proof.
  intros Hl. unfold live_on in *. unfold _get_folder_info, bind, now.
  step c Hl. do 2 eexists. split; [reflexivity|]. cbn. auto.
Qed.

(** What [detect_backup_type] answers, case by case on the reply to the
    count command. *)
Lemma detect_live rt env path st c :
  live_on c st ->
  let c0 := powershell_wrap (count_command path) in
  let o0 := exec_reply env (n_exec st) c0 in
  let r0 := command_result rt o0 in
  exists d st',
    detect_backup_type rt env path st = (Val d, st')
    /\ live_on c st'
    /\ ((success r0 = false
         /\ d = mkDetection NONE (-1) None
                  ("Failed to check backup: " ++ stderr r0)
         /\ trace st' = (trace st ++ [EvExec OpCount c0 o0])%list)
        \/ (success r0 = true /\ 1 < counted rt o0
            /\ d = mkDetection NONE (counted rt o0) None
                     ("Abort: " ++ str_of_Z (counted rt o0) ++
                      " ZIP files found (expected 1)")
            /\ trace st' = (trace st ++ [EvExec OpCount c0 o0])%list)
        \/ (success r0 = true /\ counted rt o0 = 1
            /\ (exists info, d = mkDetection ZIP 1 (Some info)
                                   "ZIP mode detected (1 ZIP file found)")
            /\ exists c1 o1,
                 trace st' = (trace st ++ [EvExec OpCount c0 o0;
                                           EvExec OpZipInfo c1 o1])%list)
        \/ (success r0 = true /\ counted rt o0 < 1
            /\ (exists info, d = mkDetection FOLDER 0 (Some info)
                                   "Folder mode detected (no ZIP files)")
            /\ n_exec st' = S (S (n_exec st))
            /\ exists c1 o1,
                 trace st' = (trace st ++ [EvExec OpCount c0 o0;
                                           EvExec OpFolderInfo c1 o1])%list)).
Proof.
  intros Hl. cbv zeta. unfold detect_backup_type, bind.
  rewrite execute_command_live with (c := c) by exact Hl.
  set (o0 := exec_reply env (n_exec st) _).
  assert (Hl1 : live_on c (sent st OpCount (powershell_wrap (count_command path)) o0))
    by exact Hl.
  destruct (success (command_result rt o0)) eqn:Hs; cbn [negb].
  2:{ do 2 eexists. split; [reflexivity|]. split; [exact Hl1|]. left. auto. }
  fold (counted rt o0).
  destruct (counted rt o0 =? 1) eqn:H1.
  { apply Z.eqb_eq in H1.
    destruct (get_zip_info_live rt env path _ c Hl1) as (info & st' & E & Hl' & _ & Ht).
    rewrite E. do 2 eexists. split; [reflexivity|]. split; [exact Hl'|].
    right; right; left. repeat split; eauto.
    do 2 eexists. rewrite Ht. cbn [sent trace]. rewrite <- app_assoc. reflexivity. }
  apply Z.eqb_neq in H1.
  destruct (counted rt o0 >? 1) eqn:H2.
  { do 2 eexists. split; [reflexivity|]. split; [exact Hl1|].
    right; left. repeat split; auto. lia. }
  destruct (get_folder_info_live rt env path _ c Hl1) as (info & st' & E & Hl' & Hn & _ & Ht).
  rewrite E. do 2 eexists. split; [reflexivity|]. split; [exact Hl'|].
  right; right; right. repeat split; eauto; [lia|].
  do 2 eexists. rewrite Ht. cbn [sent trace]. rewrite <- app_assoc. reflexivity.
Qed.

(** The staging directory is never created: the command cannot be built. *)
Lemma create_temp_folder_raises rt env base st :
  create_temp_folder rt env base st =
    (Exn (NameError "basePath"),
     mkState (agent_ssh st) (temp_folder st) (n_connect st) (n_exec st)
             (S (n_clock st)) (trace st)).
Proof. reflexivity. Qed.

(** *** Disconnection *)

Lemma disconnect_ssh_spec st :
  exists st',
    _disconnect_ssh st = (Val tt, st')
    /\ (trace st' = trace st \/ trace st' = (trace st ++ [EvClose])%list)
    /\ (forall c, live_on c st -> trace st' = (trace st ++ [EvClose])%list)
    /\ (sound_executor (agent_ssh st) -> disconnected st').
Proof.
  unfold _disconnect_ssh, bind, get_state, disconnect, with_ssh, disconnected,
    live_on, sound_executor.
  destruct (agent_ssh st) as [[c cl co]|] eqn:E.
  - rewrite E. cbn [client connected]. destruct co, cl; cbn.
    + unfold bind, log, set_connected, with_ssh, set_ssh. cbn. rewrite E.
      eexists. split; [reflexivity|]. cbn. auto.
    + eexists. split; [reflexivity|]. rewrite E. split; auto. split.
      * intros c0 H. discriminate.
      * intros Hwf. specialize (Hwf _ eq_refl eq_refl). discriminate.
    + eexists. split; [reflexivity|]. rewrite E. cbn. split; auto. split; auto.
      intros c0 H. discriminate.
    + eexists. split; [reflexivity|]. rewrite E. cbn. split; auto. split; auto.
      intros c0 H. discriminate.
  - eexists. split; [reflexivity|]. rewrite E. split; auto. split; auto.
    intros c0 H. discriminate.
Qed.

(** *** The run *)

Lemma steps_shape rt env cfg leftover :
  exists r st,
    try_except (rollback_steps rt env cfg)
      (fun e => returning AbortException
                  (mkRollbackResult false "" "" (Some "") "" (exn_str e)))
      (boot leftover) = (Val r, st)
    /\ RunShape rt cfg r (trace st)
    /\ (agent_ssh st = leftover
        \/ exists co, agent_ssh st = Some (mkSSHExecutor (ssh_config cfg) true co))
    /\ ((exists op c o, In (EvExec op c o) (trace st)) ->
        live_on (ssh_config cfg) st).
Proof.
  unfold try_except, rollback_steps, bind.
  destruct (connect_ssh_cases rt env (ssh_config cfg) (boot leftover))
    as (ok & st1 & E & _ & _ & (evs & Ht & Hev) & Hok).
  rewrite E. cbn [boot trace app] in Ht.
  destruct ok; cbn [negb].
  2:{ do 2 eexists. split; [reflexivity|]. cbn. rewrite Ht. split.
      - apply shape_no_connection; assumption.
      - split; [destruct Hok as [H|H]; [left; exact H|right; eauto]|].
        intros (op & c & o & Hin). exfalso.
        apply in_app_iff in Hin. destruct Hin as [Hin|[Hin|[]]]; [|discriminate].
        rewrite Forall_forall in Hev. exact (Hev _ Hin). }
  destruct Hok as [Hl _].
  destruct (detect_live rt env (backup_path cfg) st1 _ Hl)
    as (d & st2 & E2 & Hl2 & Hd).
  rewrite E2.
  destruct Hd as [(Hs & -> & Ht2)|[(Hs & Hc & -> & Ht2)|[(Hs & Hc & (info & ->) & c1 & o1 & Ht2)
                 |(Hs & Hc & (info & ->) & Hn & c1 & o1 & Ht2)]]];
    cbn [det_type message backup_info mode_value].
  - do 2 eexists. split; [reflexivity|]. cbn. rewrite Ht2, Ht, <- app_assoc. split.
    + apply shape_count_failed; assumption.
    + split; [right; eexists; exact Hl2|intros _; exact Hl2].
  - do 2 eexists. split; [reflexivity|]. cbn. rewrite Ht2, Ht, <- app_assoc. split.
    + apply shape_ambiguous; assumption.
    + split; [right; eexists; exact Hl2|intros _; exact Hl2].
  - rewrite create_temp_folder_raises.
    do 2 eexists. split; [reflexivity|]. cbn. rewrite Ht2, Ht, <- app_assoc. split.
    + apply (shape_archive rt cfg evs _ _ c1 o1); assumption.
    + split; [right; eexists; exact Hl2|intros _; exact Hl2].
  - destruct (restore_live rt env cfg "folder" (backup_path cfg) st2 _ Hl2)
      as (st3 & E3 & Ha & Ht3).
    rewrite E3. do 2 eexists. split; [reflexivity|]. split.
    + rewrite Ht3, Ht2, Ht, <- !app_assoc. cbn [app].
      apply (shape_folder rt cfg evs _ _ c1 o1); assumption.
    + split; [right; eexists; rewrite Ha; exact Hl2|].
      intros _. unfold live_on. rewrite Ha. exact Hl2.
Qed.

Lemma run_shape rt env cfg leftover :
  exists r st evs,
    run rt env cfg leftover = (Val r, st)
    /\ RunShape rt cfg r evs
    /\ (trace st = evs \/ trace st = (evs ++ [EvClose])%list)
    /\ ((exists op c o, In (EvExec op c o) evs) ->
        trace st = (evs ++ [EvClose])%list)
    /\ (sound_executor leftover -> disconnected st).
Proof.
  unfold run, execute_rollback, try_finally.
  destruct (steps_shape rt env cfg leftover) as (r & st & E & Hsh & Hex & Hlive).
  rewrite E.
  destruct (disconnect_ssh_spec st) as (st' & E' & Ht & Hcl & Hd).
  rewrite E'. exists r, st', (trace st). split; [reflexivity|].
  split; [exact Hsh|]. split; [exact Ht|].
  split; [intros Hin; exact (Hcl _ (Hlive Hin))|].
  intros Hwf. apply Hd. destruct Hex as [->|(co & ->)]; [exact Hwf|].
  intros ex [= <-]. reflexivity.
Qed.

(** *** Reading the trace of a run *)

Lemma in_connect_events evs ev :
  Forall connect_event evs -> In ev evs -> connect_event ev.
Proof. intros H. rewrite Forall_forall in H. apply H. Qed.

Lemma in_final_trace (t evs : list Event) ev :
  t = evs \/ t = (evs ++ [EvClose])%list ->
  ev <> EvClose ->
  In ev t -> In ev evs.
Proof.
  intros [->| ->] Hne Hin; [exact Hin|].
  apply in_app_iff in Hin. destruct Hin as [H|[H|[]]]; [exact H|].
  congruence.
Qed.

Ltac split_in H :=
  rewrite ?in_app_iff in H; cbn [In] in H;
  repeat match type of H with
         | _ \/ _ => destruct H as [H|H]
         end;
  try (exfalso; exact H);
  try discriminate H.

Ltac no_connect Hev H :=
  try (exfalso; apply (in_connect_events _ _ Hev) in H; exact H).

(** Every way a run can go, with [In ev evs] split into the places of the
    shape. *)
Ltac shapes Hsh :=
  destruct Hsh as
    [evs Hev
    |evs c0 o0 Hev Hs0
    |evs c0 o0 Hev Hs0 Hc0
    |evs c0 o0 c1 o1 Hev Hs0 Hc0
    |evs c0 o0 c1 o1 cp op cs os cd od cc oc ct ot target Hev Hs0 Hc0].

(** C3.  Every run returns a result and leaves the session disconnected,
    whichever way it went; a run whose restore copy failed (the copy command
    was sent and [robocopy] ended with a code other than 0, 1, 2) has
    success = false; and a run that sent any command ends by closing the
    client. *)
Theorem copy_failure_fails_run_and_session_is_released rt env cfg leftover :
  sound_executor leftover ->
  exists r st,
    run rt env cfg leftover = (Val r, st)
    /\ disconnected st
    /\ (forall c o,
          In (EvExec OpCopy c o) (trace st) ->
          robocopy_ok (return_code (command_result rt o)) = false ->
          rb_success r = false)
    /\ ((exists op c o, In (EvExec op c o) (trace st)) ->
        exists evs, trace st = (evs ++ [EvClose])%list).
Proof.
  intros Hwf.
  destruct (run_shape rt env cfg leftover)
    as (r & st & evs0 & E & Hsh & Ht & Hcl & Hd).
  exists r, st. split; [exact E|]. split; [exact (Hd Hwf)|].
  split.
  2:{ intros (op & c & o & Hin). exists evs0. apply Hcl. exists op, c, o.
      apply (in_final_trace _ _ _ Ht) in Hin; [exact Hin|discriminate]. }
  intros c o Hin Hko.
  apply (in_final_trace _ _ _ Ht) in Hin; [|discriminate].
  shapes Hsh; try reflexivity.
  unfold restored.
  destruct (robocopy_ok (return_code (command_result rt oc))) eqn:Hok;
    [|reflexivity].
  split_in Hin; no_connect Hev Hin.
  injection Hin as <- <-. congruence.
Qed.

Lemma counted_done rt out err code :
  counted rt (ExecDone out err code) =
    match py_int rt (py_strip rt (py_strip rt out)) with
    | Some n => n
    | None => 0
    end.
Proof. reflexivity. Qed.

Lemma detect_type rt env path st c :
  live_on c st ->
  let o0 := exec_reply env (n_exec st) (powershell_wrap (count_command path)) in
  exists d st',
    detect_backup_type rt env path st = (Val d, st')
    /\ det_type d =
         (if success (command_result rt o0) then
            if counted rt o0 =? 1 then ZIP
            else if counted rt o0 >? 1 then NONE else FOLDER
          else NONE)
    /\ (det_type d = FOLDER -> zip_count d = 0 /\ backup_info d <> None).
Proof.
  intros Hl. cbv zeta.
  destruct (detect_live rt env path st c Hl) as (d & st' & E & _ & Hd).
  exists d, st'. split; [exact E|].
  destruct Hd as [(Hs & -> & _)|[(Hs & Hc & -> & _)|[(Hs & Hc & (info & ->) & _)
                 |(Hs & Hc & (info & ->) & _)]]]; rewrite Hs; cbn [det_type zip_count backup_info].
  - split; [reflexivity|discriminate].
  - replace (counted rt _ =? 1) with false by (symmetry; apply Z.eqb_neq; lia).
    replace (counted rt _ >? 1) with true by (symmetry; apply Z.gtb_lt; lia).
    split; [reflexivity|discriminate].
  - rewrite Hc. split; [reflexivity|discriminate].
  - replace (counted rt _ =? 1) with false by (symmetry; apply Z.eqb_neq; lia).
    replace (counted rt _ >? 1) with false
      by (symmetry; rewrite Z.gtb_ltb; apply Z.ltb_ge; lia).
    split; [reflexivity|]. intros _. split; [reflexivity|discriminate].
Qed.

(** C1.  The classifier follows the decision table: when the count command
    succeeds and reports 1 archive the answer is ZIP, 0 archives FOLDER, 2 or
    more NONE; and a run whose count reply classifies as NONE (the command
    failed, or it reported 2 or more) returns a failure without having issued
    a stop, delete, copy or start command: the count command is the only one
    it sent. *)
Theorem classify_decision_table_and_abort rt env :
  (forall path st c out err n,
      live_on c st ->
      exec_reply env (n_exec st) (powershell_wrap (count_command path))
        = ExecDone out err 0 ->
      py_int rt (py_strip rt (py_strip rt out)) = Some n ->
      exists d st',
        detect_backup_type rt env path st = (Val d, st')
        /\ (n = 1 -> det_type d = ZIP)
        /\ (n = 0 -> det_type d = FOLDER)
        /\ (2 <= n -> det_type d = NONE))
  /\ (forall cfg leftover,
      exists r st,
        run rt env cfg leftover = (Val r, st)
        /\ forall c0 o0,
             In (EvExec OpCount c0 o0) (trace st) ->
             success (command_result rt o0) = false \/ 2 <= counted rt o0 ->
             rb_success r = false
             /\ In (EvReturn AbortClassify) (trace st)
             /\ forall op c o,
                  In (EvExec op c o) (trace st) ->
                  op = OpCount /\ destructive op = false).
Proof.
  split.
  - intros path st c out err n Hl Hr Hn.
    destruct (detect_type rt env path st c Hl) as (d & st' & E & Ht & _).
    exists d, st'. split; [exact E|].
    rewrite Hr in Ht. rewrite counted_done, Hn in Ht. cbn in Ht.
    repeat split; intros H; rewrite Ht.
    + subst n. reflexivity.
    + subst n. reflexivity.
    + replace (n =? 1) with false by (symmetry; apply Z.eqb_neq; lia).
      replace (n >? 1) with true by (symmetry; apply Z.gtb_lt; lia).
      reflexivity.
  - intros cfg leftover.
    destruct (run_shape rt env cfg leftover)
      as (r & st & evs0 & E & Hsh & Ht & _).
    exists r, st. split; [exact E|].
    intros k0 q0 Hin Hnone.
    apply (in_final_trace _ _ _ Ht) in Hin; [|discriminate].
    assert (Hret : forall x, In (EvReturn x) evs0 -> In (EvReturn x) (trace st)).
    { intros x Hx. destruct Ht as [-> | ->]; [exact Hx|].
      apply in_app_iff. left. exact Hx. }
    assert (Hex : forall op c o, In (EvExec op c o) (trace st) ->
                                 In (EvExec op c o) evs0).
    { intros op c o Hx. apply (in_final_trace _ _ _ Ht) in Hx; [exact Hx|discriminate]. }
    shapes Hsh.
    + split_in Hin; no_connect Hev Hin.
    + split; [reflexivity|]. split.
      { apply Hret. apply in_app_iff. right. cbn. auto. }
      intros op c o Hx. apply Hex in Hx.
      split_in Hx; no_connect Hev Hx. injection Hx as <- _ _. auto.
    + split; [reflexivity|]. split.
      { apply Hret. apply in_app_iff. right. cbn. auto. }
      intros op c o Hx. apply Hex in Hx.
      split_in Hx; no_connect Hev Hx. injection Hx as <- _ _. auto.
    + exfalso. split_in Hin; no_connect Hev Hin.
      injection Hin as _ <-. destruct Hnone as [H|H]; [congruence|lia].
    + exfalso.
      destruct (robocopy_ok _); split_in Hin; no_connect Hev Hin;
        injection Hin as _ <-; (destruct Hnone as [H|H]; [congruence|lia]).
Qed.

(** C10.  When the count command succeeds and its output is not an integer,
    the count is taken to be 0 and the backup is classified FOLDER, with a
    backup descriptor: not the NONE outcome. *)
Theorem unparsable_count_is_folder rt env path st c out err :
  live_on c st ->
  exec_reply env (n_exec st) (powershell_wrap (count_command path))
    = ExecDone out err 0 ->
  py_int rt (py_strip rt (py_strip rt out)) = None ->
  exists d st',
    detect_backup_type rt env path st = (Val d, st')
    /\ det_type d = FOLDER
    /\ zip_count d = 0
    /\ backup_info d <> None.
Proof.
  intros Hl Hr Hn.
  destruct (detect_type rt env path st c Hl) as (d & st' & E & Ht & Hf).
  exists d, st'. split; [exact E|].
  rewrite Hr in Ht. rewrite counted_done, Hn in Ht. cbn in Ht.
  split; [exact Ht|]. exact (Hf Ht).
Qed.


Lemma join_cons sep x l :
  exists rest, join sep (x :: l) = x ++ rest
               /\ (l = [] -> rest = "").
Proof.
  destruct l as [|y l].
  - exists "". cbn. rewrite append_empty_r. auto.
  - exists (sep ++ join sep (y :: l)). split; [reflexivity|discriminate].
Qed.

(** C2, as the code has it.  A run that reaches the end of the sequence (it
    issued the start command, and returned from one of the two final
    returns) has success = true, errors accumulated or not; when the stop
    command failed in such a run the error summary starts with the stop
    failure, and is exactly that when delete and start succeeded; and a
    result with success = false comes from the abort at connection,
    classification, extraction or copy, or from the catch-all handler. *)
Theorem end_of_sequence_is_success rt env cfg leftover :
  exists r st,
    run rt env cfg leftover = (Val r, st)
    /\ (In (EvReturn EndClean) (trace st)
        \/ In (EvReturn EndWithErrors) (trace st)
        \/ (exists c o, In (EvExec OpStart c o) (trace st)) ->
        rb_success r = true)
    /\ (forall c o,
          In (EvExec OpStop c o) (trace st) ->
          success (command_result rt o) = false ->
          (exists c5 o5, In (EvExec OpStart c5 o5) (trace st)) ->
          rb_success r = true
          /\ exists rest,
               rb_error r =
                 "Completed with errors: " ++
                 ("Failed to stop site: " ++ stderr (command_result rt o)) ++ rest
               /\ ((forall op c' o',
                      In (EvExec op c' o') (trace st) ->
                      op = OpDelete \/ op = OpStart ->
                      success (command_result rt o') = true) ->
                   rest = ""))
    /\ (rb_success r = false ->
        In (EvReturn AbortConnect) (trace st)
        \/ In (EvReturn AbortClassify) (trace st)
        \/ In (EvReturn AbortExtract) (trace st)
        \/ In (EvReturn AbortCopy) (trace st)
        \/ In (EvReturn AbortException) (trace st)).
Proof.
  destruct (run_shape rt env cfg leftover)
    as (r & st & evs0 & E & Hsh & Ht & _).
  exists r, st. split; [exact E|].
  assert (Hret : forall ev, In ev evs0 -> In ev (trace st)).
  { intros x Hx. destruct Ht as [-> | ->]; [exact Hx|].
    apply in_app_iff. left. exact Hx. }
  assert (Hex : forall ev, ev <> EvClose -> In ev (trace st) -> In ev evs0).
  { intros ev Hne Hx. exact (in_final_trace _ _ _ Ht Hne Hx). }
  split; [|split].
  - intros H.
    assert (Hend : In (EvReturn EndClean) evs0 \/ In (EvReturn EndWithErrors) evs0
                   \/ exists c o, In (EvExec OpStart c o) evs0).
    { destruct H as [H|[H|(c & o & H)]]; apply Hex in H; try discriminate; eauto. }
    clear H. shapes Hsh;
      try (exfalso; destruct Hend as [H|[H|(c & o & H)]];
           split_in H; no_connect Hev H; fail).
    unfold restored.
    destruct (robocopy_ok (return_code (command_result rt oc))); [reflexivity|].
    exfalso; destruct Hend as [H|[H|(c & o & H)]]; split_in H; no_connect Hev H.
  - intros c o Hin Hko (c5 & o5 & Hst).
    apply Hex in Hin; [|discriminate]. apply Hex in Hst; [|discriminate].
    shapes Hsh; try (exfalso; split_in Hin; no_connect Hev Hin; fail).
    unfold restored.
    destruct (robocopy_ok (return_code (command_result rt oc))) eqn:Hok.
    2:{ exfalso. split_in Hst; no_connect Hev Hst. }
    split; [reflexivity|].
    split_in Hin; no_connect Hev Hin. injection Hin as <- <-.
    cbn [rb_error]. unfold stop_errors at 1 2. rewrite Hko. cbn [app].
    destruct (join_cons "; " ("Failed to stop site: " ++ stderr (command_result rt os))
                (delete_errors (command_result rt od) ++
                 start_errors (command_result rt ot))) as (rest & Hj & Hnil).
    exists rest. rewrite Hj. split; [reflexivity|].
    intros Hall. apply Hnil.
    unfold delete_errors, start_errors.
    rewrite (Hall OpDelete cd od), (Hall OpStart ct ot); auto;
      apply Hret; rewrite !in_app_iff; cbn; auto 12.
  - intros Hfail.
    shapes Hsh.
    + left. apply Hret, in_app_iff. right. cbn. auto.
    + right; left. apply Hret, in_app_iff. right. cbn. auto.
    + right; left. apply Hret, in_app_iff. right. cbn. auto.
    + do 4 right. apply Hret, in_app_iff. right. cbn. auto.
    + unfold restored in Hfail.
      destruct (robocopy_ok (return_code (command_result rt oc))); [discriminate|].
      do 3 right; left. apply Hret. rewrite !in_app_iff. cbn. auto 12.
Qed.

(** C9, as the code has it.  When the preventive backup fails the run goes
    on (the stop command is issued), and the failure is only logged: the
    result carries no preventive-backup path, and nothing is added to the
    error summary, which stays empty, with success = true, when stop, delete,
    copy and start succeed. *)
Theorem preventive_failure_is_not_accumulated rt env cfg leftover :
  exists r st,
    run rt env cfg leftover = (Val r, st)
    /\ forall c o,
         In (EvExec OpPreventive c o) (trace st) ->
         success (command_result rt o) = false ->
         (exists c2 o2, In (EvExec OpStop c2 o2) (trace st))
         /\ rb_preventive_backup_path r = None
         /\ ((forall op c' o',
                In (EvExec op c' o') (trace st) ->
                destructive op = true ->
                step_ok rt op o' = true) ->
             rb_success r = true /\ rb_error r = "").
Proof.
  destruct (run_shape rt env cfg leftover)
    as (r & st & evs0 & E & Hsh & Ht & _).
  exists r, st. split; [exact E|].
  assert (Hret : forall ev, In ev evs0 -> In ev (trace st)).
  { intros x Hx. destruct Ht as [-> | ->]; [exact Hx|].
    apply in_app_iff. left. exact Hx. }
  intros c o Hin Hko.
  apply (in_final_trace _ _ _ Ht) in Hin; [|discriminate].
  shapes Hsh; try (exfalso; split_in Hin; no_connect Hev Hin; fail).
  assert (Hpv : op = o).
  { destruct (robocopy_ok _); split_in Hin; no_connect Hev Hin;
      injection Hin as _ <-; reflexivity. }
  subst op. clear Hin.
  split; [|split].
  - exists cs, os. apply Hret. rewrite !in_app_iff. cbn. auto 12.
  - unfold restored. rewrite Hko. destruct (robocopy_ok _); reflexivity.
  - intros Hall.
    assert (H2 : success (command_result rt os) = true).
    { apply (Hall OpStop cs os); [|reflexivity].
      apply Hret. rewrite !in_app_iff. cbn. auto 12. }
    assert (H3 : success (command_result rt od) = true).
    { apply (Hall OpDelete cd od); [|reflexivity].
      apply Hret. rewrite !in_app_iff. cbn. auto 12. }
    assert (H4 : robocopy_ok (return_code (command_result rt oc)) = true).
    { apply (Hall OpCopy cc oc); [|reflexivity].
      apply Hret. rewrite !in_app_iff. cbn. auto 12. }
    assert (H5 : success (command_result rt ot) = true).
    { apply (Hall OpStart ct ot); [|reflexivity].
      apply Hret. rewrite H4, !in_app_iff. cbn. auto 12. }
    unfold restored, stop_errors, delete_errors, start_errors.
    rewrite H2, H3, H4, H5. cbn. auto.
Qed.

(** C5, as the code has it.  [connect] treats every failed attempt alike,
    whatever was raised, an authentication rejection included: it tries
    again until an attempt succeeds or three have been made, and raises only
    after the third failure (the retry error wrapping that failure), leaving
    the executor disconnected. *)
Theorem connect_retries_every_failure env st ex :
  agent_ssh st = Some ex ->
  connected ex = false ->
  let k := n_connect st in
  let out := connect env st in
  (connect_reply env k = ConnOk ->
     fst out = Val true /\ n_connect (snd out) = S k)
  /\ (forall e1,
        connect_reply env k = ConnRaise e1 ->
        connect_reply env (S k) = ConnOk ->
        fst out = Val true /\ n_connect (snd out) = S (S k))
  /\ (forall e1 e2,
        connect_reply env k = ConnRaise e1 ->
        connect_reply env (S k) = ConnRaise e2 ->
        connect_reply env (S (S k)) = ConnOk ->
        fst out = Val true /\ n_connect (snd out) = S (S (S k)))
  /\ (forall e1 e2 e3,
        connect_reply env k = ConnRaise e1 ->
        connect_reply env (S k) = ConnRaise e2 ->
        connect_reply env (S (S k)) = ConnRaise e3 ->
        fst out = Exn (RetryError e3)
        /\ disconnected (snd out)
        /\ trace (snd out) =
             (trace st ++
              [EvConnect k (ConnRaise e1);
               EvSleep (wait_exponential 1 2 10 1);
               EvConnect (S k) (ConnRaise e2);
               EvSleep (wait_exponential 1 2 10 2);
               EvConnect (S (S k)) (ConnRaise e3)])%list).
Proof.
  intros Hex Hc. cbv zeta. rewrite (connect_fresh env st ex Hex Hc).
  repeat split; intros;
    repeat match goal with
           | H : connect_reply _ _ = _ |- _ => rewrite H; clear H
           end;
    try reflexivity.
  cbn [snd trace]. rewrite <- !app_assoc. reflexivity.
Qed.

(** *** The model at work *)

Import Sample.

(** C4.  A backup directory with the one archive [site_20240101.zip], on a
    host that would carry out every command: the run classifies it as ZIP,
    asks for the name of the archive, and stops in [create_temp_folder], whose
    command cannot be built.  No staging directory is made, nothing is
    extracted or copied, and the result has success = false and an empty
    mode. *)
Theorem one_archive_run_never_stages :
  exists st,
    run runtime one_archive cfg None =
      (Val (mkRollbackResult false "" "" (Some "") ""
                             "name 'basePath' is not defined"), st)
    /\ (exists d st', detect_backup_type runtime one_archive (backup_path cfg)
                        live_state = (Val d, st') /\ det_type d = ZIP)
    /\ fst (create_temp_folder runtime one_archive "E:\Temp" live_state)
         = Exn (NameError "basePath")
    /\ map (fun ev => match ev with EvExec op _ _ => Some op | _ => None end)
           (trace st)
         = [None; Some OpCount; Some OpZipInfo; None; None]
    /\ In (EvReturn AbortException) (trace st).
Proof.
  eexists. split; [vm_compute; reflexivity|].
  split; [do 2 eexists; split; vm_compute; reflexivity|].
  split; [reflexivity|]. split; [reflexivity|].
  cbn. auto 6.
Qed.

(** The same for every run whose count command reports exactly one archive:
    whatever the host answers, the result is the failure of the catch-all
    handler and no command is sent after the query of the archive's name. *)
Lemma archive_run_never_stages rt env cfg leftover :
  exists r st,
    run rt env cfg leftover = (Val r, st)
    /\ forall c0 o0,
         In (EvExec OpCount c0 o0) (trace st) ->
         success (command_result rt o0) = true ->
         counted rt o0 = 1 ->
         r = mkRollbackResult false "" "" (Some "") ""
                              "name 'basePath' is not defined"
         /\ forall op c o,
              In (EvExec op c o) (trace st) -> op = OpCount \/ op = OpZipInfo.
Proof.
  destruct (run_shape rt env cfg leftover)
    as (r & st & evs0 & E & Hsh & Ht & _).
  exists r, st. split; [exact E|].
  intros k0 q0 Hin Hok Hone.
  apply (in_final_trace _ _ _ Ht) in Hin; [|discriminate].
  shapes Hsh.
  - exfalso. split_in Hin; no_connect Hev Hin.
  - exfalso. split_in Hin; no_connect Hev Hin. injection Hin as _ <-. congruence.
  - exfalso. split_in Hin; no_connect Hev Hin. injection Hin as _ <-. lia.
  - split; [reflexivity|]. intros op c o Hx.
    apply (in_final_trace _ _ _ Ht) in Hx; [|discriminate].
    split_in Hx; no_connect Hev Hx; injection Hx as <- _ _; auto.
  - exfalso.
    destruct (robocopy_ok _); split_in Hin; no_connect Hev Hin;
      injection Hin as _ <-; lia.
Qed.

(** C8.  On a host that has no site of the given name the query succeeds and
    prints the word of the script's [else] branch, and [get_site_state]
    returns that word as if it were a state: not [None]. *)
Theorem absent_site_has_a_state :
  fst (get_site_state runtime no_site "NoSuchSite" live_state)
    = Val (Some "NotFound")
  /\ exec_reply no_site 0
       (powershell_wrap (site_state_command "NoSuchSite"))
     = site_state_script (fun _ => None) "NoSuchSite".
Proof. split; reflexivity. Qed.

(** C2 as stated fails: this run has success = false, and it did not abort
    at connection, classification, extraction or copy: it returned from the
    catch-all handler. *)
Lemma failure_outside_the_four_aborts :
  exists r st,
    run runtime one_archive cfg None = (Val r, st)
    /\ rb_success r = false
    /\ ~ (In (EvReturn AbortConnect) (trace st)
          \/ In (EvReturn AbortClassify) (trace st)
          \/ In (EvReturn AbortExtract) (trace st)
          \/ In (EvReturn AbortCopy) (trace st)).
Proof.
  do 2 eexists. split; [vm_compute; reflexivity|]. split; [reflexivity|].
  cbn. intros H.
  repeat match goal with H : _ \/ _ |- _ => destruct H as [H|H] end;
    try discriminate; assumption.
Qed.

(** C5 as stated fails: with credentials that the server rejects, [connect]
    makes three attempts, not one, and what it raises is the retry error. *)
Lemma rejected_credentials_are_retried :
  exists st,
    connect bad_credentials idle_state
      = (Exn (RetryError (AuthenticationException "Authentication failed.")), st)
    /\ attempts (trace st) = 3%nat
    /\ connect_reply bad_credentials 0
       = ConnRaise (AuthenticationException "Authentication failed.").
Proof. eexists. split; [vm_compute; reflexivity|]. split; reflexivity. Qed.

(** C9 as stated fails: the preventive backup fails, every other step
    succeeds, and the error summary of the result is empty. *)
Lemma preventive_failure_leaves_no_error :
  exists r st c,
    run runtime preventive_fails cfg None = (Val r, st)
    /\ In (EvExec OpPreventive c (ko "Access denied")) (trace st)
    /\ rb_success r = true
    /\ rb_error r = "".
Proof.
  do 3 eexists. split; [vm_compute; reflexivity|].
  split; [cbn; do 3 right; left; reflexivity|]. split; reflexivity.
Qed.

(** *** The statements above at concrete inputs *)

Lemma classify_decision_table_and_abort_witness :
  (exists d st',
      detect_backup_type runtime one_archive "/backups/MyWebsite/B1" live_state
        = (Val d, st')
      /\ det_type d = ZIP)
  /\ (exists r st,
        run runtime three_archives cfg None = (Val r, st)
        /\ rb_success r = false
        /\ In (EvReturn AbortClassify) (trace st)).
Proof.
  split.
  - destruct (proj1 (classify_decision_table_and_abort runtime one_archive)
                "/backups/MyWebsite/B1" live_state ssh_cfg "1" "" 1
                eq_refl eq_refl eq_refl)
      as (d & st' & E & H1 & _).
    exists d, st'. split; [exact E|exact (H1 eq_refl)].
  - destruct (proj2 (classify_decision_table_and_abort runtime three_archives)
                cfg None)
      as (r & st & E & H).
    exists r, st. split; [exact E|].
    vm_compute in E. injection E as <- <-.
    destruct (H (powershell_wrap (count_command (backup_path cfg))) (ok "3"))
      as (Hs & Hr & _).
    + right. left. reflexivity.
    + right. vm_compute. discriminate.
    + split; assumption.
Defined.

Lemma unparsable_count_is_folder_witness :
  exists d st',
    detect_backup_type runtime garbled_count "/backups/MyWebsite/B1" live_state
      = (Val d, st')
    /\ det_type d = FOLDER.
Proof.
  destruct (unparsable_count_is_folder runtime garbled_count
              "/backups/MyWebsite/B1" live_state ssh_cfg
              "Get-ChildItem : warning" "" eq_refl eq_refl eq_refl)
    as (d & st' & E & Ht & _).
  exists d, st'. split; assumption.
Defined.

Lemma end_of_sequence_is_success_witness :
  exists r st,
    run runtime stop_fails cfg None = (Val r, st)
    /\ rb_success r = true
    /\ rb_error r =
         "Completed with errors: Failed to stop site: site is not started".
Proof.
  destruct (end_of_sequence_is_success runtime stop_fails cfg None)
    as (r & st & E & _ & Hstop & _).
  exists r, st. split; [exact E|].
  vm_compute in E. injection E as <- <-.
  destruct (Hstop (stop_command (site_name cfg)) (ko "site is not started"))
    as (Hs & rest & Herr & Hrest).
  - cbn. do 4 right. left. reflexivity.
  - reflexivity.
  - exists (start_command (site_name cfg)), (ok "").
    cbn. do 7 right. left. reflexivity.
  - split; [exact Hs|]. reflexivity.
Defined.

Lemma copy_failure_fails_run_and_session_is_released_witness :
  sound_executor None
  /\ exists r st,
       run runtime copy_fails cfg None = (Val r, st)
       /\ disconnected st
       /\ rb_success r = false.
Proof.
  assert (Hs : sound_executor None) by (intros ex H; discriminate H).
  split; [exact Hs|].
  destruct (copy_failure_fails_run_and_session_is_released
              runtime copy_fails cfg None Hs)
    as (r & st & E & Hd & Hcopy & _).
  exists r, st. split; [exact E|]. split; [exact Hd|].
  vm_compute in E. injection E as <- <-.
  apply (Hcopy (copy_command (backup_path cfg) (site_path cfg))
               (ExecDone "" "Access is denied" 8)).
  - cbn. do 6 right. left. reflexivity.
  - reflexivity.
Defined.

Lemma connect_retries_every_failure_witness :
  agent_ssh idle_state = Some idle
  /\ connected idle = false
  /\ fst (connect bad_credentials idle_state)
     = Exn (RetryError (AuthenticationException "Authentication failed.")).
Proof.
  split; [reflexivity|]. split; [reflexivity|].
  exact (proj1 (proj2 (proj2 (proj2
           (connect_retries_every_failure bad_credentials idle_state idle
              eq_refl eq_refl)))
           (AuthenticationException "Authentication failed.")
           (AuthenticationException "Authentication failed.")
           (AuthenticationException "Authentication failed.")
           eq_refl eq_refl eq_refl)).
Defined.

Lemma execute_command_raises_iff_not_connected_witness :
  agent_ssh idle_state = Some idle
  /\ exists e st',
       execute_command runtime stop_fails OpOther "Get-Process" true idle_state
         = (Exn e, st').
Proof.
  split; [reflexivity|].
  apply (proj1 (execute_command_raises_iff_not_connected
                  runtime stop_fails OpOther "Get-Process" true
                  idle_state idle eq_refl)).
  reflexivity.
Defined.

Lemma copy_files_success_iff_exit_code_witness :
  live_on ssh_cfg live_state
  /\ exists r st',
       copy_files runtime (scripted [ExecDone "" "" 1]) "/backups/B1" "/sites/S"
                  live_state = (Val r, st')
       /\ copy_success r = true.
Proof.
  split; [reflexivity|].
  destruct (copy_files_success_iff_exit_code
              runtime (scripted [ExecDone "" "" 1]) "/backups/B1" "/sites/S"
              live_state ssh_cfg "" "" 1 eq_refl eq_refl)
    as (r & st' & E & _ & Hiff & _).
  exists r, st'. split; [exact E|].
  apply Hiff. right. left. reflexivity.
Defined.

Lemma preventive_failure_is_not_accumulated_witness :
  exists r st,
    run runtime preventive_fails cfg None = (Val r, st)
    /\ rb_preventive_backup_path r = None
    /\ rb_success r = true
    /\ rb_error r = "".
Proof.
  destruct (preventive_failure_is_not_accumulated runtime preventive_fails cfg None)
    as (r & st & E & H).
  exists r, st. split; [exact E|].
  vm_compute in E. injection E as <- <-.
  destruct (H (powershell_wrap
                 (preventive_command (site_path cfg)
                    "/backups/MyWebsite/PreRollback_20240101_120000"))
              (ko "Access denied"))
    as (_ & Hpath & Hrest).
  - cbn. do 3 right. left. reflexivity.
  - reflexivity.
  - split; [exact Hpath|]. split; reflexivity.
Defined.

(* ------------------------------------------------------------------ *)
(** * More properties *)

(** ** The remote executor, beyond the claims *)

Lemma disconnect_effect st ex :
  agent_ssh st = Some ex ->
  exists st1,
    disconnect st = (Val tt, st1)
    /\ disconnect st1 = (Val tt, st1)
    /\ (client ex && connected ex = true ->
        trace st1 = (trace st ++ [EvClose])%list /\ disconnected st1)
    /\ (client ex && connected ex = false -> st1 = st).
Proof.
  intros Hex. unfold disconnect, with_ssh. rewrite Hex.
  destruct ex as [c cl co]. cbn [client connected].
  destruct (cl && co) eqn:Hb.
  - apply andb_true_iff in Hb. destruct Hb as [-> ->].
    unfold bind, log, set_connected, with_ssh, set_ssh. cbn. rewrite Hex. cbn.
    eexists. split; [reflexivity|]. unfold disconnected. cbn.
    split; [reflexivity|]. split; [auto|discriminate].
  - exists st. rewrite Hex. cbn [client connected]. rewrite Hb.
    split; [reflexivity|]. split; [reflexivity|]. split; [discriminate|auto].
Qed.

(** X1.  [disconnect] can be called again at once: the second call changes
    nothing and closes nothing.  The first call closes the client exactly
    when there is a client and the flag is up, and leaves the flag down. *)
Theorem disconnect_twice st ex :
  agent_ssh st = Some ex ->
  exists st1,
    disconnect st = (Val tt, st1)
    /\ disconnect st1 = (Val tt, st1)
    /\ (client ex && connected ex = true ->
        trace st1 = (trace st ++ [EvClose])%list /\ disconnected st1)
    /\ (client ex && connected ex = false -> st1 = st).
Proof. exact (disconnect_effect st ex). Qed.

Lemma disconnect_twice_witness :
  agent_ssh Sample.live_state = Some Sample.live
  /\ exists st1,
       disconnect Sample.live_state = (Val tt, st1)
       /\ disconnect st1 = (Val tt, st1).
Proof.
  split; [reflexivity|].
  destruct (disconnect_twice Sample.live_state Sample.live eq_refl)
    as (st1 & E1 & E2 & _).
  exists st1. split; assumption.
Defined.

(** X2.  A second [connect] on an executor that is already connected makes
    no attempt: after a [connect] that returned True, calling it again
    returns True and leaves every counter and the trace as they are. *)
Theorem connect_twice_connects_once env st st1 :
  connect env st = (Val true, st1) ->
  connect env st1 = (Val true, st1).
Proof.
  intros H.
  assert (Hc : exists ex, agent_ssh st1 = Some ex /\ connected ex = true).
  { revert H. unfold connect at 1, with_ssh.
    destruct (agent_ssh st) as [ex|] eqn:Hex; [|discriminate].
    destruct (connected ex) eqn:Hco.
    - intros [= <-]. eauto.
    - intros H.
      assert (H' : connect env st = (Val true, st1)).
      { unfold connect, with_ssh. rewrite Hex, Hco. exact H. }
      rewrite (connect_fresh env st ex Hex Hco) in H'.
      destruct (connect_reply env (n_connect st)).
      { injection H' as <-. eexists. split; reflexivity. }
      destruct (connect_reply env (S (n_connect st))).
      { injection H' as <-. eexists. split; reflexivity. }
      destruct (connect_reply env (S (S (n_connect st)))).
      { injection H' as <-. eexists. split; reflexivity. }
      discriminate. }
  destruct Hc as (ex & Hex & Hco).
  unfold connect, with_ssh. rewrite Hex, Hco. reflexivity.
Qed.

Lemma connect_twice_connects_once_witness :
  exists st1,
    connect Sample.stop_fails Sample.idle_state = (Val true, st1)
    /\ connect Sample.stop_fails st1 = (Val true, st1)
    /\ n_connect st1 = 1%nat.
Proof.
  eexists. split; [vm_compute; reflexivity|]. split; [|reflexivity].
  apply (connect_twice_connects_once Sample.stop_fails Sample.idle_state).
  vm_compute. reflexivity.
Defined.

(** X3.  After [disconnect], [execute_command] raises the not-connected
    error and sends nothing, for every executor the class can produce. *)
Theorem execute_command_after_disconnect rt env op cmd ps st ex :
  agent_ssh st = Some ex ->
  (connected ex = true -> client ex = true) ->
  exists st1,
    disconnect st = (Val tt, st1)
    /\ execute_command rt env op cmd ps st1
       = (Exn (RuntimeError "Not connected to SSH server. Call connect() first."),
          st1).
Proof.
  intros Hex Hs.
  destruct (disconnect_effect st ex Hex) as (st1 & E & _ & Hclose & Hkeep).
  exists st1. split; [exact E|].
  destruct (client ex && connected ex) eqn:Hb.
  - destruct (Hclose eq_refl) as (_ & Hd). unfold disconnected in Hd.
    destruct (agent_ssh st1) as [ex1|] eqn:H1.
    + apply (execute_command_down rt env op cmd ps st1 ex1 H1 Hd).
    + exfalso. revert E. unfold disconnect, with_ssh. rewrite Hex, Hb.
      unfold bind, log, set_connected, with_ssh, set_ssh. cbn. rewrite Hex.
      intros [= <-]. discriminate H1.
  - rewrite (Hkeep eq_refl).
    apply (execute_command_down rt env op cmd ps st ex Hex).
    destruct (connected ex); [|reflexivity].
    rewrite (Hs eq_refl) in Hb. discriminate.
Qed.

Lemma execute_command_after_disconnect_witness :
  exists st1,
    disconnect Sample.live_state = (Val tt, st1)
    /\ fst (execute_command Sample.runtime Sample.stop_fails OpOther
              "Get-Process" true st1)
       = Exn (RuntimeError "Not connected to SSH server. Call connect() first.").
Proof.
  destruct (execute_command_after_disconnect Sample.runtime Sample.stop_fails
              OpOther "Get-Process" true Sample.live_state Sample.live eq_refl
              (fun _ => eq_refl))
    as (st1 & E & H).
  exists st1. split; [exact E|]. rewrite H. reflexivity.
Defined.

(** X4.  Every result [execute_command] returns has success = true exactly
    when its return code is 0; a failure of the transport, reported with
    return code -1, is never a success. *)
Theorem result_success_iff_return_code_zero rt env op cmd ps st r st' :
  execute_command rt env op cmd ps st = (Val r, st') ->
  (success r = true <-> return_code r = 0).
Proof.
  unfold execute_command, with_ssh.
  destruct (agent_ssh st) as [ex|] eqn:Hex; [|discriminate].
  destruct (connected ex); cbn [negb]; [|discriminate].
  unfold try_except, bind, client_exec, with_ssh. rewrite Hex.
  destruct (client ex); cbn [negb].
  - destruct (exec_reply env (n_exec st) _) as [out err code|e].
    + intros [= <- _]. cbn. apply Z.eqb_eq.
    + intros [= <- _]. cbn. split; [discriminate|lia].
  - intros [= <- _]. cbn. split; [discriminate|lia].
Qed.

Lemma result_success_iff_return_code_zero_witness :
  exists r st',
    execute_command Sample.runtime Sample.stop_fails OpOther "hostname" true
                    Sample.live_state = (Val r, st')
    /\ success r = true /\ return_code r = 0.
Proof.
  do 2 eexists. split; [vm_compute; reflexivity|].
  split; [|reflexivity].
  apply (result_success_iff_return_code_zero Sample.runtime Sample.stop_fails
           OpOther "hostname" true Sample.live_state _ _ eq_refl).
  reflexivity.
Defined.

(** X5.  The context manager releases the session whatever the block does:
    once [__enter__] has connected, the outcome of [with ssh: body] is the
    outcome of the block (its value, or its exception), the client is closed
    right after the block, and the executor is left disconnected; if
    [__enter__] fails, the exception goes on and the block never runs. *)
Theorem with_session_releases env (A : Type) (body : M A) st c :
  (forall s, live_on c s -> live_on c (snd (body s))) ->
  (forall st1,
      connect env st = (Val true, st1) -> live_on c st1 ->
      exists st',
        with_session env body st = (fst (body st1), st')
        /\ trace st' = (trace (snd (body st1)) ++ [EvClose])%list
        /\ disconnected st')
  /\ (forall e st1,
        connect env st = (Exn e, st1) ->
        with_session env body st = (Exn e, st1)).
Proof.
  intros Hkeep. split.
  - intros st1 Hc Hl.
    unfold with_session, __enter__, __exit__, bind, try_finally. rewrite Hc.
    cbn [ret]. specialize (Hkeep st1 Hl).
    destruct (body st1) as [o st2]. cbn [fst snd] in *.
    unfold live_on in Hkeep.
    unfold disconnect, with_ssh. rewrite Hkeep. cbn.
    unfold bind, log, set_connected, with_ssh, set_ssh. cbn. rewrite Hkeep. cbn.
    eexists. split; [reflexivity|]. split; [reflexivity|].
    unfold disconnected. reflexivity.
  - intros e st1 Hc.
    unfold with_session, __enter__, bind. rewrite Hc. reflexivity.
Qed.

Lemma execute_command_keeps_live rt env op cmd ps c s :
  live_on c s -> live_on c (snd (execute_command rt env op cmd ps s)).
Proof.
  intros Hl. rewrite execute_command_live with (c := c) by exact Hl. exact Hl.
Qed.

Lemma with_session_releases_witness :
  exists st',
    with_session Sample.stop_fails
      (execute_command Sample.runtime Sample.stop_fails OpOther "hostname" true)
      Sample.idle_state
    = (Val (mkCommandResult true "0" "" 0), st')
    /\ disconnected st'.
Proof.
  destruct (proj1 (with_session_releases Sample.stop_fails CommandResult
              (execute_command Sample.runtime Sample.stop_fails OpOther
                 "hostname" true)
              Sample.idle_state Sample.ssh_cfg
              (execute_command_keeps_live Sample.runtime Sample.stop_fails
                 OpOther "hostname" true Sample.ssh_cfg))
             (mkState (Some (mkSSHExecutor Sample.ssh_cfg true true)) None 1 0 0
                      [EvConnect 0 ConnOk])
             eq_refl eq_refl)
    as (st' & E & _ & Hd).
  exists st'. split; [exact E|exact Hd].
Defined.

(** ** The site controller, beyond the claims *)

(** X6.  [restart_site] stops short when the stop fails: the stop command is
    the only thing it sends (no wait, no start), and it reports the failure
    of the stop with its standard error. *)
Theorem restart_site_stops_short rt env name st c :
  live_on c st ->
  success (command_result rt (exec_reply env (n_exec st) (stop_command name)))
    = false ->
  restart_site rt env name st
  = (Val (mkRestartResult false
            ("Failed to stop site: " ++
             stderr (command_result rt
                       (exec_reply env (n_exec st) (stop_command name))))),
     sent st OpStop (stop_command name)
          (exec_reply env (n_exec st) (stop_command name))).
Proof.
  intros Hl Hs. unfold restart_site, stop_site, bind.
  rewrite execute_command_live with (c := c) by exact Hl.
  rewrite Hs. reflexivity.
Qed.

Lemma restart_site_stops_short_witness :
  exists st',
    restart_site Sample.runtime (Sample.scripted [Sample.ko "denied"]) "Shop"
                 Sample.live_state
    = (Val (mkRestartResult false "Failed to stop site: denied"), st')
    /\ n_exec st' = 1%nat.
Proof.
  eexists. split.
  - exact (restart_site_stops_short Sample.runtime
             (Sample.scripted [Sample.ko "denied"]) "Shop" Sample.live_state
             Sample.ssh_cfg eq_refl eq_refl).
  - reflexivity.
Defined.

(** X7.  When the stop succeeds, [restart_site] waits two seconds and sends
    the start command; it reports success exactly when the start succeeds
    too, and what it did is: stop, wait, start. *)
Theorem restart_site_stop_wait_start rt env name st c :
  live_on c st ->
  success (command_result rt (exec_reply env (n_exec st) (stop_command name)))
    = true ->
  exists r st',
    restart_site rt env name st = (Val r, st')
    /\ rs_success r
       = success (command_result rt
                    (exec_reply env (S (n_exec st)) (start_command name)))
    /\ trace st'
       = (trace st ++
          [EvExec OpStop (stop_command name)
             (exec_reply env (n_exec st) (stop_command name));
           EvSleep 2;
           EvExec OpStart (start_command name)
             (exec_reply env (S (n_exec st)) (start_command name))])%list.
Proof.
  intros Hl Hs. unfold restart_site, stop_site, start_site, bind, log.
  rewrite execute_command_live with (c := c) by exact Hl.
  rewrite Hs. cbn [negb sent agent_ssh temp_folder n_connect n_exec n_clock trace].
  rewrite execute_command_live with (c := c) by exact Hl.
  cbn [n_exec].
  destruct (success (command_result rt (exec_reply env (S (n_exec st)) _)));
    do 2 eexists; (split; [reflexivity|]); (split; [reflexivity|]);
    cbn; rewrite <- !app_assoc; reflexivity.
Qed.

Lemma restart_site_stop_wait_start_witness :
  exists r st',
    restart_site Sample.runtime (Sample.scripted [Sample.ok ""; Sample.ok ""])
                 "Shop" Sample.live_state = (Val r, st')
    /\ rs_success r = true.
Proof.
  destruct (restart_site_stop_wait_start Sample.runtime
              (Sample.scripted [Sample.ok ""; Sample.ok ""]) "Shop"
              Sample.live_state Sample.ssh_cfg eq_refl eq_refl)
    as (r & st' & E & Hs & _).
  exists r, st'. split; [exact E|]. rewrite Hs. reflexivity.
Defined.

(** *** Reading the list of sites *)

Lemma append_cons a (s t : string) : String a s ++ t = String a (s ++ t).
Proof. reflexivity. Qed.

Lemma append_one a (t : string) : String a "" ++ t = String a t.
Proof. reflexivity. Qed.

Lemma join_more sep x y (r : list string) :
  join sep (x :: y :: r) = x ++ sep ++ join sep (y :: r).
Proof. reflexivity. Qed.

Lemma without_append c (s t : string) :
  without c (s ++ t) = without c s && without c t.
Proof.
  induction s as [|a s IH]; [reflexivity|].
  rewrite append_cons. cbn [without]. rewrite IH, andb_assoc. reflexivity.
Qed.

Lemma split_on_without c s : without c s = true -> split_on c s = [s].
Proof.
  induction s as [|a s IH]; [reflexivity|].
  cbn [without split_on]. intros H. apply andb_true_iff in H. destruct H as [Ha Hs].
  apply negb_true_iff in Ha. rewrite Ha, (IH Hs). reflexivity.
Qed.

Lemma split_on_append c x rest :
  without c x = true ->
  split_on c (x ++ String c rest) = x :: split_on c rest.
Proof.
  induction x as [|a x IH].
  - intros _. change ("" ++ String c rest) with (String c rest).
    cbn [split_on]. rewrite Ascii.eqb_refl. reflexivity.
  - cbn [without]. intros H. apply andb_true_iff in H. destruct H as [Ha Hx].
    apply negb_true_iff in Ha. rewrite append_cons. cbn [split_on].
    rewrite Ha, (IH Hx). reflexivity.
Qed.

Lemma split_on_join c (l : list string) :
  l <> [] ->
  Forall (fun x => without c x = true) l ->
  split_on c (join (String c "") l) = l.
Proof.
  induction l as [|x l IH]; [congruence|]. intros _ H.
  inversion H as [|? ? Hx Hl]; subst.
  destruct l as [|y l].
  - apply split_on_without. exact Hx.
  - rewrite join_more. change (String c "" ++ ?t) with (String c t).
    rewrite (split_on_append c x _ Hx). f_equal. apply IH; [discriminate|exact Hl].
Qed.

Lemma without_join c sep (l : list string) :
  without c sep = true ->
  Forall (fun x => without c x = true) l ->
  without c (join sep l) = true.
Proof.
  intros Hsep. induction l as [|x l IH]; [reflexivity|].
  intros H. inversion H as [|? ? Hx Hl]; subst.
  destruct l as [|y l]; [exact Hx|].
  rewrite join_more, !without_append, Hx, Hsep, (IH Hl). reflexivity.
Qed.

Lemma parse_site_line_of_site_line rt s :
  plain_site rt s -> parse_site_line rt (site_line s) = Some s.
Proof.
  destruct s as [nm id bd stt pth]. unfold plain_site. cbn [iis_name iis_id
    iis_bindings iis_state iis_physical_path].
  intros (Hf & Hb & Hne & Hline).
  inversion Hf as [|? ? (Hn1 & _ & Hn3) Hf1]; subst.
  inversion Hf1 as [|? ? (Hi1 & _ & Hi3) Hf2]; subst.
  inversion Hf2 as [|? ? (Hs1 & _ & Hs3) Hf3]; subst.
  inversion Hf3 as [|? ? (Hp1 & _ & Hp3) _]; subst.
  unfold parse_site_line. rewrite Hline. cbn [negb].
  unfold site_line. cbn [iis_name iis_id iis_bindings iis_state iis_physical_path].
  rewrite !append_one.
  rewrite (split_on_append _ _ _ Hn1), (split_on_append _ _ _ Hi1),
    (split_on_append _ _ _ Hs1), (split_on_append _ _ _ Hp1).
  rewrite split_on_without.
  2:{ apply without_join; [reflexivity|].
      eapply Forall_impl; [|exact Hb]. cbn. intros b (H & _). exact H. }
  rewrite Hn3, Hi3, Hs3, Hp3.
  change "," with (String ","%char "").
  rewrite split_on_join; [reflexivity|exact Hne|].
  eapply Forall_impl; [|exact Hb]. cbn. intros b (_ & _ & H). exact H.
Qed.

Lemma site_line_without_lf rt s :
  plain_site rt s -> without lf (site_line s) = true.
Proof.
  destruct s as [nm id bd stt pth]. unfold plain_site. cbn [iis_name iis_id
    iis_bindings iis_state iis_physical_path].
  intros (Hf & Hb & _ & _).
  inversion Hf as [|? ? (_ & Hn & _) Hf1]; subst.
  inversion Hf1 as [|? ? (_ & Hi & _) Hf2]; subst.
  inversion Hf2 as [|? ? (_ & Hs & _) Hf3]; subst.
  inversion Hf3 as [|? ? (_ & Hp & _) _]; subst.
  unfold site_line. cbn [iis_name iis_id iis_bindings iis_state iis_physical_path].
  rewrite !without_append, Hn, Hi, Hs, Hp.
  rewrite without_join; [reflexivity|reflexivity|].
  eapply Forall_impl; [|exact Hb]. cbn. intros b (_ & H & _). exact H.
Qed.

(** X8.  Writing sites one a line and reading the text back with
    [_parse_sites] gives the same sites, in the same order, as long as each
    site is plain (no separator inside a field, at least one binding) and
    [strip] leaves the text as it is. *)
Theorem parse_sites_round_trip rt (sites : list IISSite) :
  Forall (plain_site rt) sites ->
  py_strip rt (join (String lf "") (map site_line sites))
    = join (String lf "") (map site_line sites) ->
  nonempty (py_strip rt "") = false ->
  _parse_sites rt (join (String lf "") (map site_line sites)) = sites.
Proof.
  intros Hall Hstrip Hblank. unfold _parse_sites. rewrite Hstrip.
  destruct sites as [|s0 sites].
  - cbn [map]. change (join (String lf "") []) with "".
    cbn [split_on parse_site_lines]. unfold parse_site_line.
    rewrite Hblank. reflexivity.
  - rewrite split_on_join.
    + clear Hstrip. revert Hall. generalize (s0 :: sites) as l. intros l.
      induction l as [|s l IH]; [reflexivity|].
      intros H. inversion H as [|? ? Hs Hl]; subst.
      cbn [map parse_site_lines].
      rewrite (parse_site_line_of_site_line rt s Hs), (IH Hl). reflexivity.
    + discriminate.
    + apply Forall_map. eapply Forall_impl; [|exact Hall].
      intros s Hs. exact (site_line_without_lf rt s Hs).
Qed.

(** X9.  A line that does not split into five fields, or a blank line, is
    skipped and never stops the reading: the sites of the lines before and
    after it are all there. *)
Theorem malformed_site_line_is_skipped rt (before after : list string) bad :
  (length (split_on "|" bad) < 5)%nat
  \/ nonempty (py_strip rt bad) = false ->
  parse_site_lines rt (before ++ bad :: after)
  = (parse_site_lines rt before ++ parse_site_lines rt after)%list.
Proof.
  intros Hbad.
  assert (Hnone : parse_site_line rt bad = None).
  { unfold parse_site_line. destruct Hbad as [Hlen|Hblank].
    - destruct (negb (nonempty (py_strip rt bad))); [reflexivity|].
      destruct (split_on "|" bad) as [|p0 [|p1 [|p2 [|p3 [|p4 ps]]]]];
        try reflexivity.
      cbn [length] in Hlen. lia.
    - rewrite Hblank. reflexivity. }
  induction before as [|l before IH].
  - cbn [app parse_site_lines]. rewrite Hnone. reflexivity.
  - cbn [app parse_site_lines]. rewrite IH.
    destruct (parse_site_line rt l); reflexivity.
Qed.

Lemma parse_sites_round_trip_witness :
  _parse_sites Sample.runtime
    (join (String lf "") (map site_line [Cases.default_site; Cases.shop_site]))
  = [Cases.default_site; Cases.shop_site].
Proof.
  apply (parse_sites_round_trip Sample.runtime
           [Cases.default_site; Cases.shop_site]).
  - repeat constructor; try discriminate.
  - vm_compute. reflexivity.
  - reflexivity.
Defined.

Lemma malformed_site_line_is_skipped_witness :
  parse_site_lines Sample.runtime
    ([site_line Cases.shop_site] ++ "ERROR ( message:Cannot find SITE )"
       :: [site_line Cases.default_site])
  = [Cases.shop_site; Cases.default_site].
Proof.
  rewrite (malformed_site_line_is_skipped Sample.runtime
             [site_line Cases.shop_site] [site_line Cases.default_site]
             "ERROR ( message:Cannot find SITE )").
  - vm_compute. reflexivity.
  - left. vm_compute. lia.
Defined.

(** X10.  [get_site] finds a site whatever the case of the letters, and
    gives the first one in the listing; it returns [None] when the listing
    command fails and when no listed site has the name. *)
Theorem get_site_ignores_case rt env py_lower name st c :
  live_on c st ->
  let o := exec_reply env (n_exec st) (powershell_wrap list_sites_command) in
  let listed :=
    if success (command_result rt o)
    then _parse_sites rt (stdout (command_result rt o)) else [] in
  exists found st',
    get_site rt env py_lower name st = (Val found, st')
    /\ (success (command_result rt o) = false -> found = None)
    /\ (forall s,
          found = Some s ->
          py_lower (iis_name s) = py_lower name
          /\ exists earlier later,
               listed = (earlier ++ s :: later)%list
               /\ forall e, In e earlier ->
                            py_lower (iis_name e) <> py_lower name)
    /\ (found = None ->
        forall s, In s listed -> py_lower (iis_name s) <> py_lower name).
Proof.
  intros Hl. cbv zeta. unfold get_site, list_sites, bind.
  rewrite execute_command_live with (c := c) by exact Hl.
  set (o := exec_reply env (n_exec st) _).
  set (p := fun site => String.eqb (py_lower (iis_name site)) (py_lower name)).
  assert (Hfind : forall l found,
            find p l = found ->
            (forall s, found = Some s ->
               py_lower (iis_name s) = py_lower name
               /\ exists earlier later,
                    l = (earlier ++ s :: later)%list
                    /\ forall e, In e earlier ->
                                 py_lower (iis_name e) <> py_lower name)
            /\ (found = None ->
                forall s, In s l -> py_lower (iis_name s) <> py_lower name)).
  { induction l as [|x l IH]; intros found Hf; cbn [find] in Hf.
    - subst found. split; [discriminate|]. intros _ s [].
    - destruct (p x) eqn:Hp.
      + subst found. split; [|discriminate].
        intros s [= <-]. split; [apply String.eqb_eq; exact Hp|].
        exists [], l. split; [reflexivity|]. intros e [].
      + destruct (IH found Hf) as (Hsome & Hnone).
        assert (Hx : py_lower (iis_name x) <> py_lower name)
          by (apply String.eqb_neq; exact Hp).
        split.
        * intros s Hs. destruct (Hsome s Hs) as (Heq & earlier & later & -> & Hbefore).
          split; [exact Heq|]. exists (x :: earlier), later.
          split; [reflexivity|]. intros e [<-|He]; auto.
        * intros Hn s [<-|Hs]; auto. }
  destruct (success (command_result rt o)) eqn:Hs; cbn [negb].
  - do 2 eexists. split; [reflexivity|]. split; [discriminate|].
    exact (Hfind _ _ eq_refl).
  - do 2 eexists. split; [reflexivity|]. split; [reflexivity|].
    exact (Hfind [] _ eq_refl).
Qed.

Lemma get_site_ignores_case_witness :
  exists st',
    get_site Sample.runtime
      (Sample.scripted
         [Sample.ok (join (String lf "")
                       (map site_line [Cases.default_site; Cases.shop_site]))])
      Cases.lower "SHOP" Sample.live_state
    = (Val (Some Cases.shop_site), st').
Proof.
  destruct (get_site_ignores_case Sample.runtime
              (Sample.scripted
                 [Sample.ok (join (String lf "")
                    (map site_line [Cases.default_site; Cases.shop_site]))])
              Cases.lower "SHOP" Sample.live_state Sample.ssh_cfg eq_refl)
    as (found & st' & E & _).
  exists st'. rewrite E. vm_compute in E. injection E as <- _. reflexivity.
Defined.

(** ** The backup manager, beyond the claims *)

(** X11.  A successful [cleanup_temp_folder] forgets the staging directory,
    so calling it again sends nothing and reports that there is nothing to
    clean; with no directory recorded it never sends a command. *)
Theorem cleanup_twice_cleans_once rt env st c folder :
  live_on c st ->
  temp_folder st = Some folder ->
  nonempty folder = true ->
  success (command_result rt
             (exec_reply env (n_exec st)
                (powershell_wrap (cleanup_command folder)))) = true ->
  exists r st1,
    cleanup_temp_folder rt env st = (Val r, st1)
    /\ cl_success r = true
    /\ temp_folder st1 = None
    /\ n_exec st1 = S (n_exec st)
    /\ cleanup_temp_folder rt env st1
       = (Val (mkCleanupResult true "No temp folder to clean up"), st1).
Proof.
  intros Hl Ht Hne Hok. unfold cleanup_temp_folder at 1, bind, get_state.
  rewrite Ht. cbn [truthy]. rewrite Hne. cbn [negb].
  rewrite execute_command_live with (c := c) by exact Hl.
  rewrite Hok. unfold set_temp_folder, ret.
  do 2 eexists. split; [reflexivity|]. cbn. repeat split.
Qed.

Lemma cleanup_twice_cleans_once_witness :
  exists r st1,
    cleanup_temp_folder Sample.runtime
      (Sample.scripted [Sample.ok "Cleanup complete"]) Cases.staged_state
    = (Val r, st1)
    /\ temp_folder st1 = None.
Proof.
  destruct (cleanup_twice_cleans_once Sample.runtime
              (Sample.scripted [Sample.ok "Cleanup complete"])
              Cases.staged_state Sample.ssh_cfg
              "E:\Temp\Rollback_20240101_120000"
              eq_refl eq_refl eq_refl eq_refl)
    as (r & st1 & E & _ & Ht & _).
  exists r, st1. split; assumption.
Defined.

(** X12.  A failed [cleanup_temp_folder] keeps the staging directory on
    record and reports the standard error, so the same directory is tried
    again by the next call. *)
Theorem cleanup_failure_keeps_folder rt env st c folder :
  live_on c st ->
  temp_folder st = Some folder ->
  nonempty folder = true ->
  success (command_result rt
             (exec_reply env (n_exec st)
                (powershell_wrap (cleanup_command folder)))) = false ->
  exists st1,
    cleanup_temp_folder rt env st
    = (Val (mkCleanupResult false
              ("Failed to clean up: " ++
               stderr (command_result rt
                         (exec_reply env (n_exec st)
                            (powershell_wrap (cleanup_command folder)))))),
       st1)
    /\ temp_folder st1 = Some folder
    /\ exists r st2,
         cleanup_temp_folder rt env st1 = (Val r, st2)
         /\ trace st2
            = (trace st1 ++
               [EvExec OpCleanup (powershell_wrap (cleanup_command folder))
                  (exec_reply env (n_exec st1)
                     (powershell_wrap (cleanup_command folder)))])%list.
Proof.
  intros Hl Ht Hne Hko. unfold cleanup_temp_folder at 1, bind, get_state.
  rewrite Ht. cbn [truthy]. rewrite Hne. cbn [negb].
  rewrite execute_command_live with (c := c) by exact Hl.
  rewrite Hko. unfold ret.
  eexists. split; [reflexivity|]. split; [exact Ht|].
  unfold cleanup_temp_folder, bind, get_state. cbn [sent temp_folder].
  rewrite Ht. cbn [truthy]. rewrite Hne. cbn [negb].
  rewrite execute_command_live with (c := c) by exact Hl.
  cbn [sent n_exec].
  destruct (success (command_result rt (exec_reply env (S (n_exec st)) _)));
    do 2 eexists; split; reflexivity.
Qed.

Lemma cleanup_failure_keeps_folder_witness :
  exists r st1,
    cleanup_temp_folder Sample.runtime
      (Sample.scripted [Sample.ko "Folder in use"]) Cases.staged_state
    = (Val r, st1)
    /\ cl_success r = false
    /\ temp_folder st1 = Some "E:\Temp\Rollback_20240101_120000".
Proof.
  destruct (cleanup_failure_keeps_folder Sample.runtime
              (Sample.scripted [Sample.ko "Folder in use"])
              Cases.staged_state Sample.ssh_cfg
              "E:\Temp\Rollback_20240101_120000"
              eq_refl eq_refl eq_refl eq_refl)
    as (st1 & E & Ht & _).
  do 2 eexists. split; [exact E|]. split; [reflexivity|exact Ht].
Defined.

(** ** The orchestrator, beyond the claims *)

(** X13.  With credentials that cannot be used (neither a password nor a key
    path, or a key path whose file does not exist, even beside a password) a
    new agent's rollback fails at once with the connection error: no
    connection is attempted, no command is sent, nothing is closed. *)
Theorem rollback_without_credentials_contacts_nothing
  rt env sn sp bp h u pw key :
  (truthy pw = false /\ truthy key = false)
  \/ (exists kp, key = Some kp /\ nonempty kp = true
                 /\ file_exists env (os_path_expanduser rt kp) = false) ->
  execute_rollback_simple rt env sn sp bp h u pw key (boot None)
  = (Val (mkRollbackResult false "" "" (Some "") ""
                           "Failed to establish SSH connection"),
     mkState None None 0 0 0 [EvReturn AbortConnect]).
Proof.
  intros H.
  unfold execute_rollback_simple, execute_rollback, try_finally, try_except,
    rollback_steps, bind, _connect_ssh, try_except, bind, SSHExecutor_init, bind,
    _validate_config.
  cbn [ssh_config password key_path].
  destruct H as [(Hp & Hk)|(kp & -> & Hne & Hf)].
  - rewrite Hp, Hk. reflexivity.
  - cbn [truthy]. rewrite Hne, Hf. rewrite andb_false_r. reflexivity.
Qed.

Lemma rollback_without_credentials_contacts_nothing_witness :
  fst (execute_rollback_simple Sample.runtime Sample.stop_fails
         "MyWebsite" "/sites/MyWebsite" "/backups/MyWebsite/B1"
         "192.168.1.100" "admin" (Some "") None (boot None))
  = Val (mkRollbackResult false "" "" (Some "") ""
                          "Failed to establish SSH connection").
Proof.
  rewrite (rollback_without_credentials_contacts_nothing Sample.runtime
             Sample.stop_fails "MyWebsite" "/sites/MyWebsite"
             "/backups/MyWebsite/B1" "192.168.1.100" "admin" (Some "") None
             (or_introl (conj eq_refl eq_refl))).
  reflexivity.
Defined.

(** X14.  When the server cannot be reached, a new agent's rollback makes
    exactly three connection attempts, with a wait after the first and after
    the second, sends no command, and returns the connection error with the
    executor disconnected. *)
Theorem rollback_gives_up_after_three_attempts rt env cfg e1 e2 e3 :
  truthy (password (ssh_config cfg)) = true ->
  key_path (ssh_config cfg) = None ->
  connect_reply env 0 = ConnRaise e1 ->
  connect_reply env 1 = ConnRaise e2 ->
  connect_reply env 2 = ConnRaise e3 ->
  exists st,
    run rt env cfg None
    = (Val (mkRollbackResult false "" "" (Some "") ""
                             "Failed to establish SSH connection"), st)
    /\ trace st
       = [EvConnect 0 (ConnRaise e1); EvSleep (wait_exponential 1 2 10 1);
          EvConnect 1 (ConnRaise e2); EvSleep (wait_exponential 1 2 10 2);
          EvConnect 2 (ConnRaise e3); EvReturn AbortConnect]
    /\ disconnected st.
Proof.
  intros Hp Hk H1 H2 H3.
  unfold run, execute_rollback, try_finally, try_except, rollback_steps, bind,
    _connect_ssh, try_except, bind, SSHExecutor_init, bind, _validate_config.
  rewrite Hp, Hk. cbn [negb andb ret set_ssh boot agent_ssh temp_folder
    n_connect n_exec n_clock trace].
  rewrite connect_fresh
    with (ex := mkSSHExecutor (ssh_config cfg) false false) by reflexivity.
  cbn [n_connect]. rewrite H1, H2, H3.
  eexists. split; [reflexivity|]. split; reflexivity.
Qed.

Lemma rollback_gives_up_after_three_attempts_witness :
  exists st,
    run Sample.runtime Sample.bad_credentials Sample.cfg None
    = (Val (mkRollbackResult false "" "" (Some "") ""
                             "Failed to establish SSH connection"), st)
    /\ attempts (trace st) = 3%nat.
Proof.
  destruct (rollback_gives_up_after_three_attempts Sample.runtime
              Sample.bad_credentials Sample.cfg
              (AuthenticationException "Authentication failed.")
              (AuthenticationException "Authentication failed.")
              (AuthenticationException "Authentication failed.")
              eq_refl eq_refl eq_refl eq_refl eq_refl)
    as (st & E & Ht & _).
  exists st. split; [exact E|]. rewrite Ht. reflexivity.
Defined.

(** X15.  Nothing changes the site before the stop has been tried: in every
    run that sends a stop, delete, copy or start command, the preventive
    backup, the stop, the delete and the copy are all sent, one after the
    other in this order, and no such command comes before them. *)
Theorem site_is_changed_in_a_fixed_order rt env cfg leftover :
  exists r st,
    run rt env cfg leftover = (Val r, st)
    /\ forall op c o,
         In (EvExec op c o) (trace st) ->
         destructive op = true ->
         exists before after cp op' cs os cd od cc oc,
           trace st
           = (before ++
              [EvExec OpPreventive cp op'; EvExec OpStop cs os;
               EvExec OpDelete cd od; EvExec OpCopy cc oc] ++ after)%list
           /\ forall op0 c0 o0,
                In (EvExec op0 c0 o0) before -> destructive op0 = false.
Proof.
  destruct (run_shape rt env cfg leftover)
    as (r & st & evs0 & E & Hsh & Ht & _).
  exists r, st. split; [exact E|].
  intros opx cx ox Hin Hd.
  apply (in_final_trace _ _ _ Ht) in Hin; [|discriminate].
  shapes Hsh;
    try (exfalso; split_in Hin; no_connect Hev Hin;
         injection Hin as <- _ _; discriminate Hd).
  set (tail := if robocopy_ok _ then _ else _) in *.
  assert (Hbefore : forall op0 k0 q0,
            In (EvExec op0 k0 q0)
               (evs ++ [EvExec OpCount c0 o0; EvExec OpFolderInfo c1 o1])%list ->
            destructive op0 = false).
  { intros op1 k1 q1 Hb. split_in Hb; no_connect Hev Hb;
      injection Hb as <- _ _; reflexivity. }
  exists (evs ++ [EvExec OpCount c0 o0; EvExec OpFolderInfo c1 o1])%list.
  destruct Ht as [Ht|Ht].
  - exists tail, cp, op, cs, os, cd, od, cc, oc. split; [|exact Hbefore].
    rewrite Ht, <- !app_assoc. reflexivity.
  - exists (tail ++ [EvClose])%list, cp, op, cs, os, cd, od, cc, oc.
    split; [|exact Hbefore].
    rewrite Ht, <- !app_assoc. reflexivity.
Qed.

Lemma site_is_changed_in_a_fixed_order_witness :
  exists r st before after,
    run Sample.runtime Sample.copy_fails Sample.cfg None = (Val r, st)
    /\ map (fun ev => match ev with EvExec op _ _ => Some op | _ => None end)
           (trace st)
       = (before ++ [Some OpPreventive; Some OpStop; Some OpDelete; Some OpCopy]
            ++ after)%list.
Proof.
  destruct (site_is_changed_in_a_fixed_order Sample.runtime Sample.copy_fails
              Sample.cfg None)
    as (r & st & E & H).
  exists r, st. vm_compute in E. injection E as <- <-.
  destruct (H OpStop (stop_command (site_name Sample.cfg)) (Sample.ok ""))
    as (before & after & cp & op' & cs & os & cd & od & cc & oc & Ht & _).
  - cbn. do 4 right. left. reflexivity.
  - reflexivity.
  - exists (map (fun ev => match ev with EvExec op _ _ => Some op | _ => None end)
                before),
           (map (fun ev => match ev with EvExec op _ _ => Some op | _ => None end)
                after).
    split; [reflexivity|].
    rewrite Ht, !map_app. reflexivity.
Defined.

(** X16.  The site is started again exactly when the restore copy
    succeeded: a run that sent the copy command sends the start command if
    and only if [robocopy] ended with 0, 1 or 2, and no run sends a start
    command without having sent the copy. *)
Theorem start_follows_successful_copy rt env cfg leftover :
  exists r st,
    run rt env cfg leftover = (Val r, st)
    /\ (forall cc oc,
          In (EvExec OpCopy cc oc) (trace st) ->
          ((exists ct ot, In (EvExec OpStart ct ot) (trace st))
           <-> robocopy_ok (return_code (command_result rt oc)) = true))
    /\ (forall ct ot,
          In (EvExec OpStart ct ot) (trace st) ->
          exists cc oc, In (EvExec OpCopy cc oc) (trace st)).
Proof.
  destruct (run_shape rt env cfg leftover)
    as (r & st & evs0 & E & Hsh & Ht & _).
  exists r, st. split; [exact E|].
  assert (Hret : forall ev, In ev evs0 -> In ev (trace st)).
  { intros x Hx. destruct Ht as [-> | ->]; [exact Hx|].
    apply in_app_iff. left. exact Hx. }
  assert (Hex : forall ev, ev <> EvClose -> In ev (trace st) -> In ev evs0).
  { intros ev Hne Hx. exact (in_final_trace _ _ _ Ht Hne Hx). }
  split.
  - intros kc qc Hin. apply Hex in Hin; [|discriminate].
    shapes Hsh; try (exfalso; split_in Hin; no_connect Hev Hin; fail).
    destruct (robocopy_ok (return_code (command_result rt oc))) eqn:Hok.
    + split_in Hin; no_connect Hev Hin. injection Hin as _ <-. rewrite Hok.
      split; [reflexivity|]. intros _. exists ct, ot.
      apply Hret. rewrite !in_app_iff. cbn. auto 12.
    + split_in Hin; no_connect Hev Hin. injection Hin as _ <-. rewrite Hok.
      split; [|discriminate]. intros (kt & qt & Hst). exfalso.
      apply Hex in Hst; [|discriminate].
      split_in Hst; no_connect Hev Hst.
  - intros kt qt Hin. apply Hex in Hin; [|discriminate].
    shapes Hsh; try (exfalso; split_in Hin; no_connect Hev Hin; fail).
    exists cc, oc. apply Hret. rewrite !in_app_iff. cbn. auto 12.
Qed.

Lemma start_follows_successful_copy_witness :
  exists r st,
    run Sample.runtime Sample.copy_fails Sample.cfg None = (Val r, st)
    /\ ~ exists ct ot, In (EvExec OpStart ct ot) (trace st).
Proof.
  destruct (start_follows_successful_copy Sample.runtime Sample.copy_fails
              Sample.cfg None)
    as (r & st & E & Hiff & _).
  exists r, st. split; [exact E|].
  vm_compute in E. injection E as <- <-.
  intros Hst.
  apply (Hiff (copy_command (backup_path Sample.cfg) (site_path Sample.cfg))
              (ExecDone "" "Access is denied" 8)) in Hst.
  - discriminate Hst.
  - cbn. do 6 right. left. reflexivity.
Defined.

(** X17.  When the classifier stops the run, the result carries the
    classifier's message word for word: the standard error of a failed
    count command after [Failed to check backup: ], or the number of
    archives found when there are two or more. *)
Theorem classifier_message_is_the_error rt env cfg leftover :
  exists r st,
    run rt env cfg leftover = (Val r, st)
    /\ forall c0 o0,
         In (EvExec OpCount c0 o0) (trace st) ->
         (success (command_result rt o0) = false ->
          rb_error r
          = "Failed to check backup: " ++ stderr (command_result rt o0))
         /\ (success (command_result rt o0) = true ->
             1 < counted rt o0 ->
             rb_error r
             = "Abort: " ++ str_of_Z (counted rt o0) ++
               " ZIP files found (expected 1)").
Proof.
  destruct (run_shape rt env cfg leftover)
    as (r & st & evs0 & E & Hsh & Ht & _).
  exists r, st. split; [exact E|].
  intros k0 q0 Hin.
  apply (in_final_trace _ _ _ Ht) in Hin; [|discriminate].
  shapes Hsh.
  - exfalso. split_in Hin; no_connect Hev Hin.
  - split_in Hin; no_connect Hev Hin. injection Hin as _ <-.
    split; [reflexivity|]. congruence.
  - split_in Hin; no_connect Hev Hin. injection Hin as _ <-.
    split; [congruence|]. reflexivity.
  - split_in Hin; no_connect Hev Hin. injection Hin as _ <-.
    split; [congruence|]. lia.
  - assert (q0 = o0).
    { destruct (robocopy_ok _); split_in Hin; no_connect Hev Hin;
        injection Hin as _ <-; reflexivity. }
    subst q0. split; [congruence|]. lia.
Qed.

Lemma classifier_message_is_the_error_witness :
  exists r st,
    run Sample.runtime Sample.three_archives Sample.cfg None = (Val r, st)
    /\ rb_error r = "Abort: 3 ZIP files found (expected 1)".
Proof.
  destruct (classifier_message_is_the_error Sample.runtime
              Sample.three_archives Sample.cfg None)
    as (r & st & E & H).
  exists r, st. split; [exact E|].
  vm_compute in E. injection E as <- <-.
  destruct (H (powershell_wrap (count_command (backup_path Sample.cfg)))
              (Sample.ok "3")) as (_ & Hmany).
  - cbn. right. left. reflexivity.
  - rewrite Hmany; reflexivity.
Defined.

(** X18.  In a run that reached the end, the error summary lists the
    failures of stop, delete and start, in this order, separated by
    semicolons after [Completed with errors: ], each with the standard error
    of its command; it is empty exactly when the three commands
    succeeded. *)
Theorem error_summary_lists_failed_steps rt env cfg leftover :
  exists r st,
    run rt env cfg leftover = (Val r, st)
    /\ forall cs os cd od ct ot,
         In (EvExec OpStop cs os) (trace st) ->
         In (EvExec OpDelete cd od) (trace st) ->
         In (EvExec OpStart ct ot) (trace st) ->
         let errs := (stop_errors (command_result rt os) ++
                      delete_errors (command_result rt od) ++
                      start_errors (command_result rt ot))%list in
         rb_error r
         = match errs with
           | [] => ""
           | _ => "Completed with errors: " ++ join "; " errs
           end
         /\ (rb_error r = "" <->
             success (command_result rt os) = true
             /\ success (command_result rt od) = true
             /\ success (command_result rt ot) = true).
Proof.
  destruct (run_shape rt env cfg leftover)
    as (r & st & evs0 & E & Hsh & Ht & _).
  exists r, st. split; [exact E|].
  intros ks qs kd qd kt qt H1 H2 H3.
  apply (in_final_trace _ _ _ Ht) in H1; [|discriminate].
  apply (in_final_trace _ _ _ Ht) in H2; [|discriminate].
  apply (in_final_trace _ _ _ Ht) in H3; [|discriminate].
  shapes Hsh; try (exfalso; split_in H1; no_connect Hev H1; fail).
  destruct (robocopy_ok (return_code (command_result rt oc))) eqn:Hok.
  2:{ exfalso. split_in H3; no_connect Hev H3. }
  split_in H1; no_connect Hev H1. injection H1 as _ <-.
  split_in H2; no_connect Hev H2. injection H2 as _ <-.
  split_in H3; no_connect Hev H3. injection H3 as _ <-.
  cbv zeta. unfold restored. rewrite Hok. cbn [rb_error].
  split; [reflexivity|].
  unfold stop_errors, delete_errors, start_errors.
  destruct (success (command_result rt os)),
           (success (command_result rt od)),
           (success (command_result rt ot)); cbn [app];
    (split; [intros H|intros (Ha & Hb & Hc')]);
    try discriminate; try (repeat split; reflexivity); try reflexivity.
Qed.

Lemma error_summary_lists_failed_steps_witness :
  exists r st,
    run Sample.runtime
      (Sample.scripted [Sample.ok "0"; Sample.ok Sample.stamp; Sample.ok "";
                        Sample.ko "not started"; Sample.ko "in use";
                        ExecDone "" "" 1; Sample.ko "no content"])
      Sample.cfg None = (Val r, st)
    /\ rb_error r
       = "Completed with errors: Failed to stop site: not started; Failed to delete content: in use; Failed to start site: no content".
Proof.
  destruct (error_summary_lists_failed_steps Sample.runtime
      (Sample.scripted [Sample.ok "0"; Sample.ok Sample.stamp; Sample.ok "";
                        Sample.ko "not started"; Sample.ko "in use";
                        ExecDone "" "" 1; Sample.ko "no content"])
      Sample.cfg None)
    as (r & st & E & H).
  exists r, st. split; [exact E|].
  vm_compute in E. injection E as <- <-.
  destruct (H (stop_command (site_name Sample.cfg)) (Sample.ko "not started")
              (powershell_wrap (delete_command (site_path Sample.cfg) true))
              (Sample.ko "in use")
              (start_command (site_name Sample.cfg)) (Sample.ko "no content"))
    as (Herr & _).
  - cbn. do 4 right. left. reflexivity.
  - cbn. do 5 right. left. reflexivity.
  - cbn. do 7 right. left. reflexivity.
  - rewrite Herr. reflexivity.
Defined.

(** ** The debugger agent *)

Lemma fold_max_ge (l : list Z) (x : Z) :
  x <= fold_left Z.max l x /\ forall y, In y l -> y <= fold_left Z.max l x.
Proof.
  revert x. induction l as [|a l IH]; intros x; cbn [fold_left].
  - split; [lia|]. intros y [].
  - destruct (IH (Z.max x a)) as (H1 & H2). split; [lia|].
    intros y [<-|Hy]; [lia|]. exact (H2 y Hy).
Qed.

Lemma fold_add_le (l : list Z) (x : Z) :
  (forall y, In y l -> y <= 1) ->
  fold_left Z.add l x <= x + Z.of_nat (length l).
Proof.
  revert x. induction l as [|a l IH]; intros x H; cbn [fold_left length].
  - lia.
  - assert (Ha : a <= 1) by (apply H; left; reflexivity).
    specialize (IH (x + a) (fun y Hy => H y (or_intror Hy))). lia.
Qed.

(** The health of a list of scores is never [degraded]: a sum above the
    number of scores needs a score of 2, which already makes [critical]. *)
Lemma overall_health_cases (scores : list Z) :
  (scores = [] /\ overall_health_of scores = "healthy")
  \/ (scores <> [] /\ (exists s, In s scores /\ 2 <= s)
      /\ overall_health_of scores = "critical")
  \/ (scores <> [] /\ (forall s, In s scores -> s < 2)
      /\ overall_health_of scores = "warning").
Proof.
  destruct scores as [|x l]; [left; auto|right].
  unfold overall_health_of.
  destruct (py_max (x :: l) >=? 2) eqn:Hmax.
  - left. split; [discriminate|]. split; [|reflexivity].
    apply Z.geb_le in Hmax. unfold py_max in Hmax.
    clear - Hmax. revert x Hmax.
    induction l as [|a l IH]; intros x Hmax; cbn [fold_left] in Hmax.
    + exists x. split; [left; reflexivity|lia].
    + destruct (IH _ Hmax) as (s & [<-|Hs] & H2).
      * destruct (Z.max_spec x a) as [(_ & Hm)|(_ & Hm)]; rewrite Hm in H2.
        -- exists a. split; [right; left; reflexivity|lia].
        -- exists x. split; [left; reflexivity|lia].
      * exists s. split; [right; right; exact Hs|lia].
  - right. split; [discriminate|].
    assert (Hlt : forall s, In s (x :: l) -> s < 2).
    { rewrite Z.geb_leb in Hmax. apply Z.leb_gt in Hmax. unfold py_max in Hmax.
      destruct (fold_max_ge l x) as (H1 & H2).
      intros s [<-|Hs]; [lia|]. specialize (H2 s Hs). lia. }
    split; [exact Hlt|].
    replace (py_sum (x :: l) >? Z.of_nat (length (x :: l))) with false;
      [reflexivity|].
    symmetry. rewrite Z.gtb_ltb. apply Z.ltb_ge. unfold py_sum.
    pose proof (fold_add_le (x :: l) 0
                  (fun y Hy => ltac:(specialize (Hlt y Hy); lia))). lia.
Qed.

Lemma severity_score_two s :
  2 <= severity_score s <-> s = "high" \/ s = "critical".
Proof.
  unfold severity_score.
  destruct (String.eqb_spec s "high") as [->|H1]; [cbn; split; [auto|lia]|].
  destruct (String.eqb_spec s "critical") as [->|H2]; [cbn; split; [auto|lia]|].
  cbn [orb]. destruct (String.eqb s "medium"); split; try lia; intros [?|?]; congruence.
Qed.

(** X19.  [analyze_errors] never reports the health [degraded]: a report is
    healthy for no error, critical when some error has severity high or
    critical, and a warning otherwise; attention is required exactly for the
    critical reports. *)
Theorem diagnostic_report_is_never_degraded py_lower (errors : list string) :
  let report := analyze_errors py_lower errors in
  dr_overall_health report <> "degraded"
  /\ (dr_overall_health report = "healthy" <-> errors = [])
  /\ (dr_overall_health report = "critical"
      <-> exists e, In e errors
                    /\ (ea_severity (analyze_error py_lower e) = "high"
                        \/ ea_severity (analyze_error py_lower e) = "critical"))
  /\ (dr_requires_attention report = true
      <-> dr_overall_health report = "critical").
Proof.
  cbv zeta. unfold analyze_errors.
  cbn [dr_overall_health dr_requires_attention].
  set (scores := map (fun a => severity_score (ea_severity a))
                     (map (analyze_error py_lower) errors)).
  assert (Hnil : scores = [] <-> errors = []).
  { unfold scores. destruct errors; cbn; split; congruence. }
  assert (Hhigh : (exists s, In s scores /\ 2 <= s)
                  <-> exists e, In e errors
                        /\ (ea_severity (analyze_error py_lower e) = "high"
                            \/ ea_severity (analyze_error py_lower e) = "critical")).
  { unfold scores. rewrite map_map. split.
    - intros (s & Hs & H2). apply in_map_iff in Hs. destruct Hs as (e & <- & He).
      exists e. split; [exact He|]. apply severity_score_two. exact H2.
    - intros (e & He & Hsev). eexists. split.
      + apply in_map_iff. exists e. split; [reflexivity|exact He].
      + apply severity_score_two. exact Hsev. }
  destruct (overall_health_cases scores)
    as [(Hs & ->)|[(Hs & Hex & ->)|(Hs & Hall & ->)]].
  - split; [discriminate|]. split; [tauto|]. split; [|split; discriminate].
    split; [discriminate|]. intros H. apply Hhigh in H.
    destruct H as (s & Hin & _). rewrite Hs in Hin. destruct Hin.
  - split; [discriminate|]. split; [split; [discriminate|tauto]|].
    split; [|split; reflexivity]. split; [intros _; apply Hhigh, Hex|reflexivity].
  - split; [discriminate|]. split; [split; [discriminate|tauto]|].
    split; [|split; discriminate]. split; [discriminate|].
    intros H. apply Hhigh in H. destruct H as (s & Hin & H2).
    specialize (Hall s Hin). lia.
Qed.

Lemma prefix_without c needle hay :
  String.prefix needle hay = true ->
  without c hay = true -> without c needle = true.
Proof.
  revert hay. induction needle as [|a needle IH]; intros hay Hp Hw;
    [reflexivity|].
  destruct hay as [|b hay]; [discriminate|].
  cbn [String.prefix] in Hp. destruct (ascii_dec a b) as [->|]; [|discriminate].
  cbn [without] in *. apply andb_true_iff in Hw. destruct Hw as [Hb Hh].
  rewrite Hb, (IH hay Hp Hh). reflexivity.
Qed.

Lemma contains_without c needle hay :
  without c hay = true -> without c needle = false ->
  contains needle hay = false.
Proof.
  intros Hw Hn. induction hay as [|b hay IH].
  - cbn [contains]. destruct (String.prefix needle "") eqn:Hp; [|reflexivity].
    rewrite (prefix_without c needle "" Hp Hw) in Hn. discriminate.
  - cbn [contains]. destruct (String.prefix needle (String b hay)) eqn:Hp.
    + rewrite (prefix_without c needle _ Hp Hw) in Hn. discriminate.
    + apply IH. cbn [without] in Hw. apply andb_true_iff in Hw. tauto.
Qed.

(** X20.  Every pattern name is written with an underscore, so a message
    whose lower-case form has none matches no pattern: [analyze_error] gives
    it the generic analysis, category unknown, severity medium, without a
    diagnostic command. *)
Theorem plain_words_match_no_pattern py_lower (error_message : string) :
  without "_" (py_lower error_message) = true ->
  analyze_error py_lower error_message = generic_analysis error_message.
Proof.
  intros Hw. unfold analyze_error, error_patterns. cbn [match_pattern].
  rewrite !(contains_without "_" _ _ Hw) by reflexivity. reflexivity.
Qed.

Lemma plain_words_match_no_pattern_witness :
  ea_category (analyze_error Cases.lower "Failed to establish SSH connection")
  = UNKNOWN.
Proof.
  rewrite (plain_words_match_no_pattern Cases.lower
             "Failed to establish SSH connection" eq_refl).
  reflexivity.
Defined.

Lemma analysis_has_a_fix py_lower e :
  ea_message (analyze_error py_lower e) = e
  /\ exists fix1 more,
       ea_suggested_fixes (analyze_error py_lower e) = fix1 :: more.
Proof.
  unfold analyze_error, error_patterns. cbn [match_pattern].
  repeat match goal with
         | |- context [if contains ?n ?h then _ else _] =>
             destruct (contains n h)
         end;
    (split; [reflexivity|do 2 eexists; reflexivity]).
Qed.

(** X21.  A diagnostic report keeps the error messages, one analysis for
    each in the order given, and holds exactly one recommendation for each
    error. *)
Theorem report_has_one_recommendation_per_error py_lower (errors : list string) :
  map ea_message (dr_errors (analyze_errors py_lower errors)) = errors
  /\ length (dr_recommendations (analyze_errors py_lower errors))
     = length errors.
Proof.
  unfold analyze_errors. cbn [dr_errors dr_recommendations].
  induction errors as [|e errors (IH1 & IH2)]; [split; reflexivity|].
  cbn [map flat_map length].
  destruct (analysis_has_a_fix py_lower e) as (Hm & fix1 & more & Hf).
  split.
  - rewrite Hm, IH1. reflexivity.
  - rewrite length_app, IH2. unfold recommendation. rewrite Hf. reflexivity.
Qed.

Lemma dict_get_set_same {V} k (v : V) d : dict_get k (dict_set k v d) = Some v.
Proof.
  induction d as [|[k' v'] d IH]; cbn [dict_set dict_get].
  - rewrite String.eqb_refl. reflexivity.
  - destruct (String.eqb k' k) eqn:Hk; cbn [dict_get].
    + rewrite String.eqb_refl. reflexivity.
    + rewrite Hk. exact IH.
Qed.

Lemma dict_get_set_keeps {V} k k' (v : V) d :
  dict_get k d <> None -> dict_get k (dict_set k' v d) <> None.
Proof.
  induction d as [|[k0 v0] d IH]; cbn [dict_set dict_get]; [congruence|].
  destruct (String.eqb k0 k) eqn:Hk.
  - intros _. destruct (String.eqb k0 k') eqn:Hk'; cbn [dict_get].
    + apply String.eqb_eq in Hk, Hk'. subst. rewrite String.eqb_refl. discriminate.
    + rewrite Hk. discriminate.
  - intros H. destruct (String.eqb k0 k') eqn:Hk'; cbn [dict_get].
    + apply String.eqb_eq in Hk'. subst k0. rewrite Hk. exact H.
    + rewrite Hk. exact (IH H).
Qed.

Lemma dict_set_length {V} k (v : V) d :
  (length (dict_set k v d) <= S (length d))%nat.
Proof.
  induction d as [|[k' v'] d IH]; cbn [dict_set length]; [lia|].
  destruct (String.eqb k' k); cbn [length]; lia.
Qed.

Lemma diagnostics_loop_total rt env (diagnostics : list string) :
  forall results st,
  exists d st',
    diagnostics_loop rt env diagnostics results st = (Val d, st')
    /\ (forall k, dict_get k results <> None -> dict_get k d <> None)
    /\ (forall diag, In diag diagnostics -> dict_get diag d <> None)
    /\ (length d <= length results + length diagnostics)%nat.
Proof.
  induction diagnostics as [|diag rest IH]; intros results st.
  - exists results, st. split; [reflexivity|]. split; [auto|].
    split; [intros ? []|cbn; lia].
  - cbn [diagnostics_loop]. unfold bind at 1.
    assert (He : exists entry st1,
               try_except
                 (result <- execute_command rt env OpOther diag true ;;
                  ret (mkDiagEntry (success result) (stdout result)
                                   (stderr result)))
                 (fun e => ret (mkDiagEntry false "" (exn_str e))) st
               = (Val entry, st1)).
    { unfold try_except, bind.
      destruct (execute_command rt env OpOther diag true st) as [[r|e] st1];
        do 2 eexists; reflexivity. }
    destruct He as (entry & st1 & ->).
    destruct (IH (dict_set diag entry results) st1)
      as (d & st' & E & Hkeep & Hall & Hlen).
    exists d, st'. split; [exact E|]. split; [|split].
    + intros k Hk. apply Hkeep. apply dict_get_set_keeps. exact Hk.
    + intros k [<-|Hk]; [|exact (Hall k Hk)].
      apply Hkeep. rewrite dict_get_set_same. discriminate.
    + pose proof (dict_set_length diag entry results). cbn [length]. lia.
Qed.

Lemma diagnostics_loop_down rt env ex (diagnostics : list string) :
  connected ex = false ->
  forall results st,
    agent_ssh st = Some ex ->
    exists d,
      diagnostics_loop rt env diagnostics results st = (Val d, st)
      /\ forall k entry,
           dict_get k d = Some entry ->
           dict_get k results = Some entry
           \/ entry = mkDiagEntry false ""
                "Not connected to SSH server. Call connect() first.".
Proof.
  intros Hc. induction diagnostics as [|diag rest IH]; intros results st Hex.
  - exists results. split; [reflexivity|]. auto.
  - cbn [diagnostics_loop]. unfold bind at 1, try_except, bind.
    rewrite (execute_command_down rt env OpOther diag true st ex Hex Hc).
    cbn [ret].
    destruct (IH (dict_set diag
                    (mkDiagEntry false ""
                       (exn_str (RuntimeError
                          "Not connected to SSH server. Call connect() first.")))
                    results) st Hex) as (d & E & Hd).
    exists d. split; [exact E|].
    intros k entry Hk. destruct (Hd k entry Hk) as [H|H]; [|auto].
    clear - H. revert H.
    induction results as [|[k0 v0] results IHr]; cbn [dict_set dict_get].
    + destruct (String.eqb diag k); [|discriminate]. intros [= <-]. auto.
    + destruct (String.eqb k0 diag) eqn:Hk0; cbn [dict_get].
      * destruct (String.eqb diag k) eqn:Hdk.
        -- intros [= <-]. auto.
        -- apply String.eqb_eq in Hk0. subst k0. rewrite Hdk. auto.
      * destruct (String.eqb k0 k); [auto|]. exact IHr.
Qed.

(** X22.  [run_diagnostics] never raises, whatever the state of the
    executor: it returns a dictionary with an entry for every command of the
    list (one entry only for a command listed twice).  On a disconnected
    executor nothing is sent and every entry is a failure that carries the
    not-connected error. *)
Theorem run_diagnostics_never_raises rt env (diagnostics : list string) st :
  (exists d st',
      run_diagnostics rt env diagnostics st = (Val d, st')
      /\ (forall diag, In diag diagnostics -> dict_get diag d <> None)
      /\ (length d <= length diagnostics)%nat)
  /\ (forall ex,
        agent_ssh st = Some ex -> connected ex = false ->
        exists d,
          run_diagnostics rt env diagnostics st = (Val d, st)
          /\ forall k entry,
               dict_get k d = Some entry ->
               entry = mkDiagEntry false ""
                         "Not connected to SSH server. Call connect() first.").
Proof.
  unfold run_diagnostics. split.
  - destruct (diagnostics_loop_total rt env diagnostics [] st)
      as (d & st' & E & _ & Hall & Hlen).
    exists d, st'. split; [exact E|]. split; [exact Hall|exact Hlen].
  - intros ex Hex Hc.
    destruct (diagnostics_loop_down rt env ex diagnostics Hc [] st Hex)
      as (d & E & Hd).
    exists d. split; [exact E|].
    intros k entry Hk. destruct (Hd k entry Hk) as [H|H]; [discriminate H|exact H].
Qed.

Lemma run_diagnostics_never_raises_witness :
  exists d,
    run_diagnostics Sample.runtime Sample.stop_fails
      ["appcmd list site"; "appcmd list apppool"; "appcmd list site"]
      Sample.idle_state = (Val d, Sample.idle_state)
    /\ length d = 2%nat.
Proof.
  destruct (proj2 (run_diagnostics_never_raises Sample.runtime Sample.stop_fails
                     ["appcmd list site"; "appcmd list apppool";
                      "appcmd list site"]
                     Sample.idle_state)
              Sample.idle eq_refl eq_refl)
    as (d & E & _).
  exists d. split; [exact E|].
  vm_compute in E. injection E as <-. reflexivity.
Defined.

(** ** More on the site controller and the classifier *)

(** X23.  When the transport fails during the copy, [copy_files] does not
    raise: it reports a failure with return code -1, the text of the
    exception as standard error and inside its message. *)
Theorem copy_files_reports_transport_failure rt env src dst st c e :
  live_on c st ->
  exec_reply env (n_exec st) (copy_command src dst) = ExecRaise e ->
  copy_files rt env src dst st
  = (Val (mkCopyResult false ("Copy failed: " ++ exn_str e) "" (exn_str e) (-1)),
     sent st OpCopy (copy_command src dst) (ExecRaise e)).
Proof.
  intros Hl Hr. unfold copy_files, bind.
  rewrite execute_command_live with (c := c) by exact Hl.
  rewrite Hr. reflexivity.
Qed.

Lemma copy_files_reports_transport_failure_witness :
  fst (copy_files Sample.runtime (Sample.scripted []) "/backups/B1" "/sites/S"
                  Sample.live_state)
  = Val (mkCopyResult false "Copy failed: closed" "" "closed" (-1)).
Proof.
  rewrite (copy_files_reports_transport_failure Sample.runtime
             (Sample.scripted []) "/backups/B1" "/sites/S" Sample.live_state
             Sample.ssh_cfg (SocketError "closed") eq_refl eq_refl).
  reflexivity.
Defined.

(** X24.  A count below 1 is read as no archive: when the count command
    succeeds and prints a negative number, the backup is classified FOLDER
    and the count reported is 0, not the number printed. *)
Theorem negative_count_is_folder rt env path st c out err n :
  live_on c st ->
  exec_reply env (n_exec st) (powershell_wrap (count_command path))
    = ExecDone out err 0 ->
  py_int rt (py_strip rt (py_strip rt out)) = Some n ->
  n < 0 ->
  exists d st',
    detect_backup_type rt env path st = (Val d, st')
    /\ det_type d = FOLDER
    /\ zip_count d = 0.
Proof.
  intros Hl Hr Hn Hneg.
  destruct (detect_type rt env path st c Hl) as (d & st' & E & Ht & Hf).
  exists d, st'. split; [exact E|].
  rewrite Hr in Ht. rewrite counted_done, Hn in Ht. cbn [command_result success] in Ht.
  replace (0 =? 0) with true in Ht by reflexivity.
  replace (n =? 1) with false in Ht by (symmetry; apply Z.eqb_neq; lia).
  replace (n >? 1) with false in Ht
    by (symmetry; rewrite Z.gtb_ltb; apply Z.ltb_ge; lia).
  split; [exact Ht|]. exact (proj1 (Hf Ht)).
Qed.

Lemma negative_count_is_folder_witness :
  exists d st',
    detect_backup_type Sample.runtime
      (Sample.scripted [Sample.ok "-2"; Sample.ok Sample.stamp])
      "/backups/MyWebsite/B1" Sample.live_state = (Val d, st')
    /\ det_type d = FOLDER /\ zip_count d = 0.
Proof.
  exact (negative_count_is_folder Sample.runtime
           (Sample.scripted [Sample.ok "-2"; Sample.ok Sample.stamp])
           "/backups/MyWebsite/B1" Sample.live_state Sample.ssh_cfg
           "-2" "" (-2) eq_refl eq_refl eq_refl eq_refl).
Defined.

(** X25.  [_get_zip_info] always answers with a descriptor of a ZIP backup
    at the path asked; when the name of the archive cannot be read (the
    query failed, printed nothing, or printed no bar) the name is the
    default [backup.zip] and the time is the local clock's. *)
Theorem zip_info_falls_back rt env path st c :
  live_on c st ->
  let r := command_result rt
             (exec_reply env (n_exec st)
                (powershell_wrap (zip_info_command path))) in
  exists info st',
    _get_zip_info rt env path st = (Val info, st')
    /\ bi_path info = path
    /\ bi_type info = BT_ZIP
    /\ (success r = false \/ stdout r = ""
        \/ without "|" (stdout r) = true ->
        bi_name info = "backup.zip"
        /\ bi_timestamp info = Now (n_clock st)).
Proof.
  intros Hl. cbv zeta. unfold live_on in Hl. unfold _get_zip_info, bind, now.
  rewrite execute_command_live with (c := c) by exact Hl.
  set (r := command_result rt _).
  destruct (success r) eqn:Hs; cbn [andb].
  2:{ do 2 eexists. split; [reflexivity|]. cbn. auto. }
  destruct (stdout r) as [|a out] eqn:Ho; cbn [nonempty].
  { do 2 eexists. split; [reflexivity|]. cbn. auto. }
  destruct (without "|" (String a out)) eqn:Hw.
  - rewrite (split_on_without _ _ Hw).
    do 2 eexists. split; [reflexivity|]. cbn. auto.
  - destruct (split_on "|" (String a out)) as [|p0 [|p1 ps]];
      [| |destruct (strptime_ok rt (py_strip rt p1))];
      do 2 eexists; (split; [reflexivity|]); cbn;
      (split; [reflexivity|]); (split; [reflexivity|]);
      intros [H|[H|H]]; discriminate.
Qed.

Lemma zip_info_falls_back_witness :
  exists info st',
    _get_zip_info Sample.runtime (Sample.scripted [Sample.ko "denied"])
                  "/backups/MyWebsite/B1" Sample.live_state = (Val info, st')
    /\ bi_name info = "backup.zip".
Proof.
  destruct (zip_info_falls_back Sample.runtime
              (Sample.scripted [Sample.ko "denied"]) "/backups/MyWebsite/B1"
              Sample.live_state Sample.ssh_cfg eq_refl)
    as (info & st' & E & _ & _ & H).
  exists info, st'. split; [exact E|].
  exact (proj1 (H (or_introl eq_refl))).
Defined.
